(** * BeFake command line: feed download, path templates, session load

    A shallow embedding of [BeFake/__main__.py]: the [feed] command with
    its two nested helpers [_save_post_common] and [_save_realmojis], the
    [load_bf] decorator and the [refresh] command.

    Python's exceptions are values of [exn]; every command is a function
    from the state of the outside world (file system, request log, session
    file) to an outcome and a new state, so that what was written before an
    exception stays written. *)

From Stdlib Require Import String Ascii List ZArith Lia Bool.
From stdpp Require Import base option list gmap strings.

Local Open Scope string_scope.
Local Open Scope list_scope.

(** ** Exceptions and outcomes *)

Inductive exn : Type :=
| KeyError (key : string)
| IndexError
| ValueError (msg : string)
| AttributeError (attr : string)
| FileExistsError
| FileNotFoundError
| NotADirectoryError
| IsADirectoryError
| MediaDownloadError (url : string)
| NoSessionError
| AuthExpiredError.

Inductive outcome (A : Type) : Type :=
| ok (a : A)
| raised (e : exn).
Arguments ok {A} a.
Arguments raised {A} e.

(** ** [str.format]

    The scanner of CPython's [str.format] ([MarkupIterator_next] and
    [parse_field]), written as one pass over the characters with the place
    in the grammar as an explicit state.  It yields the literal characters
    and the replacement fields in the order in which CPython renders them; a
    syntax error ends the list, so that a field to the left of the
    error is still looked up first, as CPython does. *)

Record field : Type := mkField {
  field_name : string;          (* text before [!], [:] or the closing brace *)
  conversion : option ascii;    (* the character after [!] *)
  format_spec : string          (* text after [:], inner braces included *)
}.

Inductive piece : Type :=
| TLit (c : ascii)
| TField (f : field)
| TErr (e : exn).

Inductive scan_state : Type :=
| InText
| InName (name : string)
| InIndex (name : string)
| AtConversion (name : string)
| AfterConversion (name : string) (conv : ascii)
| InSpec (name : string) (conv : option ascii) (spec : string) (depth : nat).

Definition snoc (s : string) (c : ascii) : string := String.append s (String c "").

Definition lbrace : ascii := "{"%char.
Definition rbrace : ascii := "}"%char.

Definition at_end (st : scan_state) : list piece :=
  match st with
  | InText => []
  | InName _ | InIndex _ =>
      [TErr (ValueError "expected '}' before end of string")]
  | AtConversion _ =>
      [TErr (ValueError "end of string while looking for conversion specifier")]
  | AfterConversion _ _ | InSpec _ _ _ _ =>
      [TErr (ValueError "unmatched '{' in format spec")]
  end.

Fixpoint scan (st : scan_state) (s : string) : list piece :=
  match s with
  | "" => at_end st
  | String c s' =>
    match st with
    | InText =>
        if Ascii.eqb c lbrace then
          match s' with
          | "" => [TErr (ValueError "Single '{' encountered in format string")]
          | String c' s'' =>
              if Ascii.eqb c' lbrace then TLit lbrace :: scan InText s''
              else scan (InName "") s'
          end
        else if Ascii.eqb c rbrace then
          match s' with
          | "" => [TErr (ValueError "Single '}' encountered in format string")]
          | String c' s'' =>
              if Ascii.eqb c' rbrace then TLit rbrace :: scan InText s''
              else [TErr (ValueError "Single '}' encountered in format string")]
          end
        else TLit c :: scan InText s'
    | InName n =>
        if Ascii.eqb c lbrace then
          [TErr (ValueError "unexpected '{' in field name")]
        else if Ascii.eqb c "["%char then scan (InIndex (snoc n c)) s'
        else if Ascii.eqb c rbrace then
          TField (mkField n None "") :: scan InText s'
        else if Ascii.eqb c ":"%char then scan (InSpec n None "" 0) s'
        else if Ascii.eqb c "!"%char then scan (AtConversion n) s'
        else scan (InName (snoc n c)) s'
    | InIndex n =>
        if Ascii.eqb c "]"%char then scan (InName (snoc n c)) s'
        else scan (InIndex (snoc n c)) s'
    | AtConversion n => scan (AfterConversion n c) s'
    | AfterConversion n cv =>
        if Ascii.eqb c rbrace then
          TField (mkField n (Some cv) "") :: scan InText s'
        else if Ascii.eqb c ":"%char then scan (InSpec n (Some cv) "" 0) s'
        else [TErr (ValueError "expected ':' after conversion specifier")]
    | InSpec n cv sp d =>
        if Ascii.eqb c lbrace then scan (InSpec n cv (snoc sp c) (S d)) s'
        else if Ascii.eqb c rbrace then
          match d with
          | O => TField (mkField n cv sp) :: scan InText s'
          | S d' => scan (InSpec n cv (snoc sp c) d') s'
          end
        else scan (InSpec n cv (snoc sp c) d) s'
    end
  end.

Definition pieces (template : string) : list piece := scan InText template.

(** [get_integer]: a field name made of decimal digits only is an index
    into the positional arguments; CPython checks for overflow of a
    [Py_ssize_t] (here 64 bits) while it reads the digits. *)

Inductive int_parse : Type :=
| NotInt
| TooManyDigits
| IsInt (n : Z).

Definition PY_SSIZE_T_MAX : Z := 2 ^ 63 - 1.

Definition digit_of (c : ascii) : option Z :=
  let n := Z.of_nat (nat_of_ascii c) in
  if (48 <=? n)%Z && (n <=? 57)%Z then Some (n - 48)%Z else None.

Fixpoint get_integer (accumulator : Z) (s : string) : int_parse :=
  match s with
  | "" => IsInt accumulator
  | String c s' =>
      match digit_of c with
      | None => NotInt
      | Some digitval =>
          if (accumulator >? (PY_SSIZE_T_MAX - digitval) / 10)%Z
          then TooManyDigits
          else get_integer (accumulator * 10 + digitval)%Z s'
      end
  end.

(** [field_name_split]: the argument name runs up to the first [.] or [[];
    what follows are attribute and index accessors. *)

Fixpoint field_name_split (s : string) : string * string :=
  match s with
  | "" => ("", "")
  | String c s' =>
      if Ascii.eqb c "."%char || Ascii.eqb c "["%char then ("", s)
      else let '(first, rest) := field_name_split s' in (String c first, rest)
  end.

Definition arg_name (f : field) : string := fst (field_name_split (field_name f)).

(** A field with nothing but a name renders the value itself. *)
Definition plain (f : field) : bool :=
  match snd (field_name_split (field_name f)), conversion f, format_spec f with
  | "", None, "" => true
  | _, _, _ => false
  end.

Section Format.

(** What Python makes of a value that is looked up with accessors, a
    conversion or a format specification ([getattr], [repr],
    [__format__], the expansion of fields nested in the specification)
    belongs to the interpreter and not to this program: it is a parameter,
    and may raise. *)
Variable py_render :
  string -> field -> gmap string string -> outcome string.

(** The calls of [format] in this program pass keyword arguments only, so
    an empty or numeric argument name finds no positional argument. *)
Definition get_field (kwargs : gmap string string) (f : field) : outcome string :=
  let first := arg_name f in
  match first with
  | "" => raised IndexError
  | _ =>
      match get_integer 0 first with
      | TooManyDigits => raised (ValueError "Too many decimal digits in format string")
      | IsInt _ => raised IndexError
      | NotInt =>
          match kwargs !! first with
          | None => raised (KeyError first)
          | Some v => if plain f then ok v else py_render v f kwargs
          end
      end
  end.

Fixpoint build (kwargs : gmap string string) (ts : list piece) : outcome string :=
  match ts with
  | [] => ok ""
  | TLit c :: ts' =>
      match build kwargs ts' with
      | ok s => ok (String c s)
      | raised e => raised e
      end
  | TField f :: ts' =>
      match get_field kwargs f with
      | raised e => raised e
      | ok v =>
          match build kwargs ts' with
          | ok s => ok (String.append v s)
          | raised e => raised e
          end
      end
  | TErr e :: _ => raised e
  end.

(** [template.format] called with keyword arguments [kwargs] *)
Definition format (template : string) (kwargs : gmap string string) : outcome string :=
  build kwargs (pieces template).

(** The same call on an option of the command line that may be [None]. *)
Definition format_opt (template : option string) (kwargs : gmap string string)
  : outcome string :=
  match template with
  | None => raised (AttributeError "format")
  | Some t => format t kwargs
  end.

End Format.

(** Python's [needle in haystack] on strings. *)

Fixpoint is_prefix (p s : string) : bool :=
  match p, s with
  | "", _ => true
  | String a p', String b s' => Ascii.eqb a b && is_prefix p' s'
  | String _ _, "" => false
  end.

Fixpoint contains (needle haystack : string) : bool :=
  is_prefix needle haystack ||
  match haystack with
  | "" => false
  | String _ h' => contains needle h'
  end.

(** Python's [a or b] on optional strings: [None] and the empty string
    are falsy. *)
Definition py_or (a b : option string) : option string :=
  match a with
  | None | Some "" => b
  | Some _ => a
  end.

(** ** Paths

    A [pathlib.Path] below the root, as its components, innermost first:
    [/mem/2024-01-01] is [["2024-01-01"; "mem"]].  [BASE_DIR] is
    [Path.cwd()], so every path the program builds is absolute.  As in
    [pathlib], empty and [.] components are dropped and [..] is kept as a
    name.  A string that starts with two slashes is read as one under the
    root, which is where Linux resolves it.

    The file system below is keyed by the path as written.  That is the
    entry the kernel reaches as long as no component is [..]; properties
    that promise that a call succeeds are stated for such paths
    ([plain_path]). *)

Abbreviation Path := (list string).

Fixpoint split_slash (cur : string) (s : string) : list string :=
  match s with
  | "" => [cur]
  | String c s' =>
      if Ascii.eqb c "/"%char then cur :: split_slash "" s'
      else split_slash (snoc cur c) s'
  end.

Definition keep_part (part : string) : bool :=
  negb (String.eqb part "" || String.eqb part ".").

Definition parts (s : string) : list string :=
  List.filter keep_part (split_slash "" s).

Definition is_absolute (s : string) : bool :=
  match s with
  | String c _ => Ascii.eqb c "/"%char
  | "" => false
  end.

(** [base / s] *)
Definition joinpath (base : Path) (s : string) : Path :=
  if is_absolute s then rev (parts s) else rev (parts s) ++ base.

Definition parent (p : Path) : Path := tail p.

(** A name that stands for one entry of its directory: not empty, not
    [.] or [..], without a slash. *)
Definition plain_name (name : string) : bool :=
  negb (String.eqb name "" || String.eqb name "." || String.eqb name "..")
  && forallb (fun c => negb (Ascii.eqb c "/"%char)) (list_ascii_of_string name).

Definition plain_path (p : Path) : bool := forallb plain_name p.

(** ** The outside world *)

Inductive Node : Type :=
| Dir
| File (content : string).

Record Session : Type := mkSession {
  access_token : string;
  refresh_token : string;
  identity_id : string;
  expiry_timestamp : Z
}.

(** What leaves the process: requests to the service and to the identity
    provider, writes of the session file, lines printed. *)
Inductive Event : Type :=
| Download (url : string) (dest : Path)
| DateRequest (emoji : string)
| TokenRefresh (token : string)
| Persist (s : Session)
| Echo (text : string).

Record World : Type := mkWorld {
  fs : gmap Path Node;
  events : list Event;
  session_file : option Session
}.

Definition set_fs (f : gmap Path Node) (w : World) : World :=
  mkWorld f (events w) (session_file w).

(** ** Commands: state and exceptions *)

Definition M (A : Type) : Type := World -> outcome A * World.

#[global] Instance M_ret : MRet M := fun A a w => (ok a, w).

#[global] Instance M_bind : MBind M := fun A B f m w =>
  match m w with
  | (ok a, w') => f a w'
  | (raised e, w') => (raised e, w')
  end.

Definition raise {A} (e : exn) : M A := fun w => (raised e, w).

Definition lift {A} (o : outcome A) : M A := fun w => (o, w).

Definition emit (ev : Event) : M unit :=
  fun w => (ok tt, mkWorld (fs w) (events w ++ [ev]) (session_file w)).

(** [try: m except Exception as e: h e] *)
Definition try_catch {A} (m : M A) (h : exn -> M A) : M A := fun w =>
  match m w with
  | (ok a, w') => (ok a, w')
  | (raised e, w') => h e w'
  end.

(** [for x in l: body x] *)
Fixpoint for_each {A} (l : list A) (body : A -> M unit) : M unit :=
  match l with
  | [] => mret tt
  | x :: l' => body x;; for_each l' body
  end.

(** ** File system calls *)

(** The root always exists. *)
Definition lookup_node (f : gmap Path Node) (p : Path) : option Node :=
  match p with
  | [] => Some Dir
  | _ => f !! p
  end.

Definition is_dir (p : Path) : M bool := fun w =>
  (ok (match lookup_node (fs w) p with Some Dir => true | _ => false end), w).

(** The error of the kernel for a path that goes through [p], which is
    not there: [ENOENT] if the nearest entry above [p] is a directory,
    [ENOTDIR] if it is a regular file. *)
Fixpoint missing_error (f : gmap Path Node) (p : Path) : exn :=
  match p with
  | [] => FileNotFoundError
  | _ :: up =>
      match lookup_node f up with
      | Some Dir => FileNotFoundError
      | Some (File _) => NotADirectoryError
      | None => missing_error f up
      end
  end.

(** [os.mkdir(p)] *)
Definition os_mkdir (p : Path) : M unit := fun w =>
  match lookup_node (fs w) p with
  | Some _ => (raised FileExistsError, w)
  | None =>
      match lookup_node (fs w) (parent p) with
      | Some Dir => (ok tt, set_fs (<[p := Dir]> (fs w)) w)
      | Some (File _) => (raised NotADirectoryError, w)
      | None => (raised (missing_error (fs w) (parent p)), w)
      end
  end.

(** The handler for [OSError] in [Path.mkdir] when [exist_ok] is true:
    the error is dropped if the path is a directory by now. *)
Definition unless_is_dir (p : Path) (e : exn) : M unit :=
  b ← is_dir p; if b : bool then mret tt else raise e.

(** [p.mkdir(parents=False, exist_ok=True)] *)
Definition mkdir_leaf (p : Path) : M unit :=
  try_catch (os_mkdir p) (fun e =>
    match e with
    | FileNotFoundError => raise e
    | _ => unless_is_dir p e
    end).

(** [p.mkdir(parents=True, exist_ok=True)], with the recursion of
    [pathlib]: try the directory itself, and on [FileNotFoundError] make
    the parent first. *)
Fixpoint mkdir (p : Path) : M unit :=
  try_catch (os_mkdir p) (fun e =>
    match e with
    | FileNotFoundError =>
        match p with
        | [] => raise e
        | _ :: up => mkdir up;; mkdir_leaf p
        end
    | _ => unless_is_dir p e
    end).

(** [open(p, "w").write(data)] *)
Definition write_file (p : Path) (data : string) : M unit := fun w =>
  match lookup_node (fs w) p with
  | Some Dir => (raised IsADirectoryError, w)
  | _ =>
      match lookup_node (fs w) (parent p) with
      | Some Dir => (ok tt, set_fs (<[p := File data]> (fs w)) w)
      | Some (File _) => (raised NotADirectoryError, w)
      | None => (raised (missing_error (fs w) (parent p)), w)
      end
  end.

(** ** Feed items *)

(** A media reference: its URL and whether the asset exists. *)
Record Media : Type := mkMedia {
  url : string;
  present : bool
}.

(** A date, as the object the program uses it as: something with a
    [format] method. *)
Record DateTime : Type := mkDateTime {
  dt_format : string -> string
}.

Record Realmoji : Type := mkRealmoji {
  emoji_id : string;
  emoji_type : string;
  emoji_username : string;
  emoji_url_id : string;
  emoji_date : DateTime;     (* what the extra request answers *)
  emoji_photo : Media
}.

(** [data_dict] fields hold the text [json.dumps(data_dict, indent=4)]
    gives; other fields hold the text [str] gives. *)
Record Post : Type := mkPost {
  post_id : string;
  creation_date : DateTime;
  post_data_dict : string;
  post_primary_photo : Media;
  post_secondary_photo : Media;
  post_bts_video : Media;
  realmojis : list Realmoji
}.

Record Memory : Type := mkMemory {
  memory_id : string;
  memory_day : string;
  memory_data_dict : string;
  memory_primary_photo : Media;
  memory_secondary_photo : Media;
  memory_bts_video : Media
}.

Record Moment : Type := mkMoment {
  user_username : string;
  notification_id : string;
  posts : list Post
}.

Inductive FeedItem : Type :=
| ItMemory (m : Memory)
| ItMoment (m : Moment)
| ItPost (p : Post).

(** What [_save_post_common] asks of its [item]. *)
Class Saveable (A : Type) : Type := {
  data_dict : A -> string;
  primary_photo : A -> Media;
  secondary_photo : A -> Media;
  bts_video : A -> Media
}.

#[global] Instance Saveable_Post : Saveable Post :=
  {| data_dict := post_data_dict;
     primary_photo := post_primary_photo;
     secondary_photo := post_secondary_photo;
     bts_video := post_bts_video |}.

#[global] Instance Saveable_Memory : Saveable Memory :=
  {| data_dict := memory_data_dict;
     primary_photo := memory_primary_photo;
     secondary_photo := memory_secondary_photo;
     bts_video := memory_bts_video |}.

(** The client object of [BeFake/BeFake.py], as far as this file uses it:
    the feed getters and the token. *)
Record BeFake : Type := mkBeFake {
  token : Session;
  get_friendsv1_feed : M (list FeedItem);
  get_fof_feed : M (list FeedItem);
  get_memories_feed : M (list FeedItem);
  get_memoriesv1_feed : M (list FeedItem);
  get_discovery_feed : M (list FeedItem)
}.

(** Everything the program is given from outside. *)
Record Env : Type := mkEnv {
  (* the interpreter: rendering of fields that are more than a name *)
  py_render : string -> field -> gmap string string -> outcome string;
  (* [Path.cwd()] when the module is loaded *)
  BASE_DIR : Path;
  (* the media servers: the body of a URL, or no success *)
  fetch : string -> option string;
  (* the identity provider: the session a refresh token buys at a time *)
  grant : string -> Z -> option Session;
  (* the client bound to a loaded session *)
  connect : Session -> BeFake
}.

(** ** The program

    The calls of [logging] are left out: they read attributes the next
    statement reads again and change nothing the properties look at. *)

Section Program.

Variable env : Env.

(** Modelled from the spec: [download] of a media reference, whose code
    ([BeFake/models/picture.py]) is not part of this file.  It fetches the
    remote asset and writes it at the path it is given, and fails with
    [MediaDownloadError] if the remote fetch does not succeed. *)
Definition download (m : Media) (dest : Path) : M unit :=
  emit (Download (url m) dest);;
  match fetch env (url m) with
  | None => raise (MediaDownloadError (url m))
  | Some data => write_file dest data
  end.

(** Modelled from the spec: [exists] of a media reference, a cheap
    query of the existence flag, distinct from the download. *)
Definition exists_ (m : Media) : bool := present m.

(** Modelled from the spec: the [date] of a realmoji, whose class
    ([BeFake/models/realmoji_picture.py]) is not part of this file; it
    requires a dedicated fetch.  The comment at its only use says the same:
    getting the realmoji creation date sends an extra request. *)
Definition date (emoji : Realmoji) : M DateTime :=
  emit (DateRequest (emoji_id emoji));;
  mret (emoji_date emoji).

(** [_save_post_common]: downloads info.json, primary, secondary, and
    bts. *)
Definition _save_post_common {A} `{Saveable A} (item : A) (_save_location : Path)
  : M unit :=
  mkdir _save_location;;
  write_file (joinpath _save_location "info.json") (data_dict item);;
  download (primary_photo item) (joinpath _save_location "primary");;
  download (secondary_photo item) (joinpath _save_location "secondary");;
  if exists_ (bts_video item)
  then download (bts_video item) (joinpath _save_location "bts")
  else mret tt.

Definition date_format : string := "YYYY-MM-DD_HH-mm-ss".

(** The template for one realmoji: the instant or the non-instant one. *)
Definition pick_location (realmoji_location instant_realmoji_location : option string)
    (emoji : Realmoji) : option string :=
  if String.eqb (emoji_type emoji) "instant"
  then instant_realmoji_location
  else realmoji_location.

(** The keyword arguments of the first [format] of a realmoji location;
    [date] is given as the placeholder itself. *)
Definition realmoji_kwargs (feed_id : string) (item : Moment) (post_date : string)
    (post : Post) (emoji : Realmoji) : gmap string string :=
  list_to_map
    [("user", emoji_username emoji); ("type", emoji_type emoji);
     ("feed_id", feed_id); ("notification_id", notification_id item);
     ("post_date", post_date); ("post_user", user_username item);
     ("post_id", post_id post); ("emoji_id", emoji_id emoji);
     ("emoji_url_id", emoji_url_id emoji); ("date", "{date}")].

(** The first [format] of a realmoji location. *)
Definition first_pass (feed_id : string) (item : Moment) (post_date : string)
    (post : Post) (template : option string) (emoji : Realmoji) : outcome string :=
  format_opt (py_render env) template
    (realmoji_kwargs feed_id item post_date post emoji).

(** The second [format], made only if [{date}] is in the string: it
    asks for the date of the realmoji. *)
Definition second_pass (emoji : Realmoji) (_realmoji_location : string) : M string :=
  if contains "{date}" _realmoji_location then
    d ← date emoji;
    lift (format (py_render env) _realmoji_location
            (list_to_map [("date", dt_format d date_format)]))
  else mret _realmoji_location.

(** The body of the loop of [_save_realmojis]; [feed_id], [item] and
    [post_date] are the variables of [feed] the nested function sees. *)
Definition _save_realmoji (feed_id : string) (item : Moment) (post_date : string)
    (post : Post) (realmoji_location instant_realmoji_location : option string)
    (emoji : Realmoji) : M unit :=
  let _realmoji_location :=
    pick_location realmoji_location instant_realmoji_location emoji in
  _realmoji_location ← lift (first_pass feed_id item post_date post
                               _realmoji_location emoji);
  _realmoji_location ← second_pass emoji _realmoji_location;
  let _realmoji_location_path := joinpath (BASE_DIR env) _realmoji_location in
  mkdir (parent _realmoji_location_path);;
  download (emoji_photo emoji) _realmoji_location_path.

Definition _save_realmojis (feed_id : string) (item : Moment) (post_date : string)
    (post : Post) (realmoji_location instant_realmoji_location : option string)
  : M unit :=
  for_each (realmojis post)
    (_save_realmoji feed_id item post_date post
       realmoji_location instant_realmoji_location).

(** Attribute access on a feed item of the wrong kind fails. *)
Definition as_memory (item : FeedItem) : M Memory :=
  match item with
  | ItMemory m => mret m
  | _ => raise (AttributeError "memory_day")
  end.

Definition as_moment (item : FeedItem) : M Moment :=
  match item with
  | ItMoment m => mret m
  | _ => raise (AttributeError "posts")
  end.

(** The save location of a post of the friends-v1 feed. *)
Definition post_location (feed_id save_location : string) (item : Moment)
    (post : Post) (post_date : string) : outcome string :=
  format (py_render env) save_location
    (list_to_map
       [("user", user_username item); ("date", post_date);
        ("feed_id", feed_id); ("post_id", post_id post);
        ("notification_id", notification_id item)]).

(** One post of a friends-v1 moment. *)
Definition save_post (feed_id save_location : string)
    (realmoji_location instant_realmoji_location : option string)
    (item : Moment) (post : Post) : M unit :=
  let post_date := dt_format (creation_date post) date_format in
  s ← lift (post_location feed_id save_location item post post_date);
  let _save_location := joinpath (BASE_DIR env) s in
  _save_post_common post _save_location;;
  _save_realmojis feed_id item post_date post
    realmoji_location instant_realmoji_location.

(** The body of [for item in feed]. *)
Definition save_item (feed_id save_location : string)
    (realmoji_location instant_realmoji_location : option string)
    (item : FeedItem) : M unit :=
  if String.eqb feed_id "memories" then
    m ← as_memory item;
    s ← lift (format (py_render env) save_location
                (list_to_map [("date", memory_day m)]));
    _save_post_common m (joinpath (BASE_DIR env) s)
  else if String.eqb feed_id "memories-v1" then
    m ← as_memory item;
    s ← lift (format (py_render env) save_location
                (list_to_map [("date", memory_day m); ("post_id", memory_id m)]));
    _save_post_common m (joinpath (BASE_DIR env) s)
  else if String.eqb feed_id "friends-v1" then
    m ← as_moment item;
    for_each (posts m)
      (save_post feed_id save_location
         realmoji_location instant_realmoji_location m)
  else mret tt.

(** The values [click.Choice] lets through as [feed_id]. *)
Definition feed_choices : list string :=
  ["friends"; "friends-v1"; "friends-of-friends"; "discovery";
   "memories"; "memories-v1"].

Definition FEEDGETTER_MAP (bf : BeFake) : gmap string (M (list FeedItem)) :=
  list_to_map
    [("friends-v1", get_friendsv1_feed bf);
     ("friends-of-friends", get_fof_feed bf);
     ("memories", get_memories_feed bf);
     ("memories-v1", get_memoriesv1_feed bf)].

(** [feed], as the function under its decorators. *)
Definition feed (bf : BeFake) (feed_id save_location : string)
    (realmoji_location instant_realmoji_location : option string) : M unit :=
  match FEEDGETTER_MAP bf !! feed_id with
  | None => raise (KeyError feed_id)
  | Some getter =>
      feed ← getter;
      let instant_realmoji_location :=
        py_or instant_realmoji_location realmoji_location in
      for_each feed
        (save_item feed_id save_location
           realmoji_location instant_realmoji_location)
  end.

(** ** Session *)

(** Modelled from the spec: [persist], the write-through of the session
    to its file ([BeFake/BeFake.py] is not part of this file). *)
Definition persist (s : Session) : M unit := fun w =>
  (ok tt, mkWorld (fs w) (events w ++ [Persist s]) (Some s)).

Definition expired (s : Session) (now : Z) : bool :=
  (expiry_timestamp s <? now)%Z.

(** Modelled from the spec: the refresh of the session manager, whose
    code ([BeFake/BeFake.py]) is not part of this file.  It asks the
    identity provider once, with the stored refresh token; on success
    the new session is persisted, on failure it fails with
    [AuthExpiredError]. *)
Definition refresh_tokens (s : Session) (now : Z) : M Session :=
  emit (TokenRefresh (refresh_token s));;
  match grant env (refresh_token s) now with
  | None => raise AuthExpiredError
  | Some s' => persist s';; mret s'
  end.

(** Modelled from the spec: [ensure_authenticated], the [load] of the
    client, whose code ([BeFake/BeFake.py]) is not part of this file.
    It fails with [NoSessionError] if nothing is stored, refreshes if
    the expiry of the stored session has passed, and returns the
    session. *)
Definition ensure_authenticated (now : Z) : M Session := fun w =>
  match session_file w with
  | None => (raised NoSessionError, w)
  | Some s =>
      if expired s now then refresh_tokens s now w else (ok s, w)
  end.

(** [load_bf]: loads the BeFake object and passes it as the first
    argument to the function. *)
Definition load_bf {A} (now : Z) (func : BeFake -> M A) : M A :=
  s ← ensure_authenticated now;
  func (connect env s).

(** The [refresh] command. *)
Definition refresh (now : Z) : M unit :=
  load_bf now (fun bf =>
    s ← refresh_tokens (token bf) now;
    emit (Echo (access_token s))).

(** The [feed] command. *)
Definition feed_command (now : Z) (feed_id save_location : string)
    (realmoji_location instant_realmoji_location : option string) : M unit :=
  load_bf now (fun bf =>
    feed bf feed_id save_location realmoji_location instant_realmoji_location).

End Program.

(** ** Observations on the world *)

Fixpoint count_events (p : Event -> bool) (evs : list Event) : nat :=
  match evs with
  | [] => 0
  | ev :: evs' => (if p ev then 1 else 0) + count_events p evs'
  end.

Definition is_download_to (dest : Path) (ev : Event) : bool :=
  match ev with
  | Download _ d => bool_decide (d = dest)
  | _ => false
  end.

Definition is_date_request (ev : Event) : bool :=
  match ev with
  | DateRequest _ => true
  | _ => false
  end.

Definition is_refresh (ev : Event) : bool :=
  match ev with
  | TokenRefresh _ => true
  | _ => false
  end.

(** Download attempts with a given destination, calls of the date
    provider, refresh calls, so far. *)
Definition attempts (dest : Path) (w : World) : nat :=
  count_events (is_download_to dest) (events w).

Definition date_requests (w : World) : nat :=
  count_events is_date_request (events w).

Definition refreshes (w : World) : nat :=
  count_events is_refresh (events w).

(** What [mkdir] leaves alone: the events and the session file. *)
Definition same_but_fs (w w' : World) : Prop :=
  events w' = events w /\ session_file w' = session_file w.

(** A command leaves an observation of the world as it is, whatever its
    outcome. *)
Definition preserves {A X} (obs : World -> X) (m : M A) : Prop :=
  forall w, obs (snd (m w)) = obs w.

(** What a run of [_save_post_common] that returned has left on disk. *)
Definition saved (env : Env) {A} `{Saveable A} (item : A) (loc : Path)
    (f : gmap Path Node) : Prop :=
  lookup_node f loc = Some Dir /\
  f !! ("info.json" :: loc) = Some (File (data_dict item)) /\
  (exists b, fetch env (url (primary_photo item)) = Some b /\
             f !! ("primary" :: loc) = Some (File b)) /\
  (exists b, fetch env (url (secondary_photo item)) = Some b /\
             f !! ("secondary" :: loc) = Some (File b)) /\
  (present (bts_video item) = true ->
   exists b, fetch env (url (bts_video item)) = Some b /\
             f !! ("bts" :: loc) = Some (File b)).

(** ** Sample data *)

Definition sample_date (text : string) : DateTime := mkDateTime (fun _ => text).

Definition sample_memory (day : string) : Memory :=
  mkMemory ("id-" +:+ day) day "{}"
    (mkMedia ("https://cdn/" +:+ day +:+ "/primary.webp") true)
    (mkMedia ("https://cdn/" +:+ day +:+ "/secondary.webp") true)
    (mkMedia "https://cdn/gone" false).

Definition sample_session : Session := mkSession "access" "refresh" "me" 100.

Definition sample_bf (s : Session) : BeFake :=
  mkBeFake s (mret []) (mret [])
    (mret [ItMemory (sample_memory "2024-01-01");
           ItMemory (sample_memory "2024-01-02")])
    (mret []) (mret []).

(** An outside in which every asset but one can be fetched and a refresh
    buys an hour. *)
Definition sample_env : Env :=
  mkEnv (fun _ _ _ => raised (ValueError "Invalid format specifier"))
    ["befake"; "home"]
    (fun u => if String.eqb u "https://cdn/gone" then None else Some ("bytes of " +:+ u))
    (fun tok now => Some (mkSession "access2" tok "me" (now + 3600)))
    sample_bf.

Definition empty_world : World := mkWorld ∅ [] None.

Definition sample_realmoji (kind user : string) : Realmoji :=
  mkRealmoji ("emoji-of-" +:+ user) kind user ("url-of-" +:+ user)
    (sample_date "2024-01-01")
    (mkMedia ("https://cdn/realmoji/" +:+ user) true).

(** ** Vocabulary for templates *)

(** The names a template asks for, in order. *)
Fixpoint placeholders_of (ps : list piece) : list string :=
  match ps with
  | [] => []
  | TField f :: ps' => arg_name f :: placeholders_of ps'
  | _ :: ps' => placeholders_of ps'
  end.

Definition placeholders (template : string) : list string :=
  placeholders_of (pieces template).

(** The names each [format] call of [feed] supplies. *)
Definition memory_fields : list string := ["date"].
Definition memoryv1_fields : list string := ["date"; "post_id"].
Definition post_fields : list string :=
  ["user"; "date"; "feed_id"; "post_id"; "notification_id"].
Definition realmoji_fields : list string :=
  ["user"; "type"; "feed_id"; "notification_id"; "post_date"; "post_user";
   "post_id"; "emoji_id"; "emoji_url_id"; "date"].

(** A string cut into text without braces and [{date}] placeholders. *)
Inductive segment : Type :=
| Text (s : string)
| DateHole.

Fixpoint brace_free (s : string) : bool :=
  match s with
  | "" => true
  | String c s' =>
      negb (Ascii.eqb c lbrace) && negb (Ascii.eqb c rbrace) && brace_free s'
  end.

Definition segment_ok (g : segment) : bool :=
  match g with
  | Text s => brace_free s
  | DateHole => true
  end.

Fixpoint unparse (segs : list segment) : string :=
  match segs with
  | [] => ""
  | Text s :: segs' => String.append s (unparse segs')
  | DateHole :: segs' => String.append "{date}" (unparse segs')
  end.

(** The string with [value] in the place of every [{date}]. *)
Fixpoint fill (value : string) (segs : list segment) : string :=
  match segs with
  | [] => ""
  | Text s :: segs' => String.append s (fill value segs')
  | DateHole :: segs' => String.append value (fill value segs')
  end.

(** The world after one more event. *)
Definition after_event (ev : Event) (w : World) : World :=
  mkWorld (fs w) (events w ++ [ev]) (session_file w).

Definition sample_post : Post :=
  mkPost "post-1" (sample_date "2024-01-01_12-00-00") "{}"
    (mkMedia "https://cdn/post-1/primary.webp" true)
    (mkMedia "https://cdn/post-1/secondary.webp" true)
    (mkMedia "https://cdn/gone" false)
    [sample_realmoji "instant" "alice"].

Definition sample_moment : Moment := mkMoment "bob" "notification-1" [sample_post].

(** A memory whose primary photo cannot be fetched. *)
Definition broken_memory (day : string) : Memory :=
  mkMemory ("id-" +:+ day) day "{}"
    (mkMedia "https://cdn/gone" true)
    (mkMedia ("https://cdn/" +:+ day +:+ "/secondary.webp") true)
    (mkMedia "https://cdn/gone" false).

Definition broken_bf : BeFake :=
  mkBeFake sample_session (mret []) (mret [])
    (mret [ItMemory (sample_memory "2024-01-01");
           ItMemory (broken_memory "2024-01-02");
           ItMemory (sample_memory "2024-01-03")])
    (mret []) (mret []).

(** The assets of an item that [_save_post_common] downloads can be
    fetched. *)
Definition fetchable (env : Env) {A} `{Saveable A} (item : A) : Prop :=
  is_Some (fetch env (url (primary_photo item))) /\
  is_Some (fetch env (url (secondary_photo item))) /\
  (present (bts_video item) = true -> is_Some (fetch env (url (bts_video item)))).

(** A world whose session file holds the sample session, which expires
    at time 100. *)
Definition logged_in_world : World := mkWorld ∅ [] (Some sample_session).

(** ** The other commands of the file *)

(** A profile picture: a media reference and its [get_date] method, whose
    class is not part of this file. *)
Record Picture : Type := mkPicture {
  picture_media : Media;
  get_date : M DateTime
}.

Record Friend : Type := mkFriend {
  friend_username : string;
  friend_data_dict : string;
  profile_picture : option Picture
}.

(** The client with the one more method [parse_friends] calls. *)
Record FriendsClient : Type := mkFriendsClient {
  client : BeFake;
  get_friends : M (list Friend)
}.

(** The body of the loop of [parse_friends].  [open] and [download] are
    given strings: they name paths from the working directory, which is
    [BASE_DIR]. *)
Definition parse_friend (env : Env) (save_location : string) (friend : Friend)
  : M unit :=
  _save_location ← lift (format (py_render env) save_location
                           (list_to_map [("user", friend_username friend)]));
  write_file (joinpath (BASE_DIR env) (_save_location +:+ "/info.json"))
    (friend_data_dict friend);;
  match profile_picture friend with
  | None => mret tt
  | Some picture =>
      d ← get_date picture;
      let creation_date := dt_format d date_format in
      download env (picture_media picture)
        (joinpath (BASE_DIR env)
           (_save_location +:+ "/" +:+ creation_date +:+ "_profile_picture"))
  end.

(** [parse_friends], as the function under its decorators. *)
Definition parse_friends (env : Env) (bf : FriendsClient)
    (save_location : option string) : M unit :=
  friends ← get_friends bf;
  let save_location :=
    match save_location with
    | None => "/friends/{user}"
    | Some s => s
    end in
  for_each friends (parse_friend env save_location).

(** [get_post] can fail in one more way than the commands above. *)
Inductive cli_exn : Type :=
| Core (e : exn)
| TypeError (msg : string).

(** Calling a value that is a list. *)
Definition call_list {A} (v : list A) : cli_exn + list A :=
  inl (TypeError "'list' object is not callable").

(** What [get_post] reads of a post: [post.id] and the text of
    [post.__dict__]; the classes are not part of this file. *)
Record PostView : Type := mkPostView {
  view_id : FeedItem -> outcome string;
  view_dict : FeedItem -> string
}.

(** The three getters are called while the dictionary is built, in the
    order of its entries. *)
Definition get_post_feeds (bf : BeFake) : M (gmap string (list FeedItem)) :=
  friends ← get_friendsv1_feed bf;
  fof ← get_fof_feed bf;
  discovery ← get_discovery_feed bf;
  mret (list_to_map [("friends", friends); ("friends-of-friends", fof);
                     ("discovery", discovery)]).

Definition echo_post (view : PostView) (post_id : string) (post : FeedItem)
  : M unit :=
  id ← lift (view_id view post);
  if String.eqb id post_id then emit (Echo (view_dict view post)) else mret tt.

(** [get_post], as the function under its decorators: the entry of the
    dictionary is a feed, and it is called. *)
Definition get_post (view : PostView) (bf : BeFake) (feed_id post_id : string)
  : World -> (cli_exn + unit) * World := fun w =>
  match get_post_feeds bf w with
  | (raised e, w') => (inl (Core e), w')
  | (ok table, w') =>
      match table !! feed_id with
      | None => (inl (Core (KeyError feed_id)), w')
      | Some entry =>
          match call_list entry with
          | inl e => (inl e, w')
          | inr feed =>
              match for_each feed (echo_post view post_id) w' with
              | (ok _, w'') => (inr tt, w'')
              | (raised e, w'') => (inl (Core e), w'')
              end
          end
      end
  end.

(** The values [click.Choice] lets through as [feed_id] of [get_post]. *)
Definition get_post_choices : list string :=
  ["friends"; "friends-of-friends"; "discovery"].

(** ** More observations *)

Inductive kind : Type :=
| KDir
| KFile.

Definition kind_of (n : Node) : kind :=
  match n with
  | Dir => KDir
  | File _ => KFile
  end.

(** What kind of entry, if any, the file system has at a path. *)
Definition kind_at (q : Path) (w : World) : option kind :=
  kind_of <$> fs w !! q.

(** A command keeps a property of the world, whatever its outcome. *)
Definition stable {A} (P : World -> Prop) (m : M A) : Prop :=
  forall w, P w -> P (snd (m w)).


Definition is_hole (g : segment) : bool :=
  match g with
  | DateHole => true
  | Text _ => false
  end.

(** ** More sample data *)

Definition sample_view : PostView :=
  mkPostView
    (fun item => match item with
                 | ItPost p => ok (post_id p)
                 | ItMemory m => ok (memory_id m)
                 | ItMoment _ => raised (AttributeError "id")
                 end)
    (fun _ => "{...}").

Definition sample_friend : Friend := mkFriend "carol" "{}" None.

Definition sample_friends_client : FriendsClient :=
  mkFriendsClient (sample_bf sample_session) (mret [sample_friend]).

(** A memory with a bts video that exists. *)
Definition memory_with_bts (day : string) : Memory :=
  mkMemory ("id-" +:+ day) day "{bts: yes}"
    (mkMedia ("https://cdn/" +:+ day +:+ "/primary.webp") true)
    (mkMedia ("https://cdn/" +:+ day +:+ "/secondary.webp") true)
    (mkMedia ("https://cdn/" +:+ day +:+ "/bts.mp4") true).

(** A client whose friends-v1 feed is the sample moment. *)
Definition moment_bf : BeFake :=
  mkBeFake sample_session (mret [ItMoment sample_moment]) (mret [])
    (mret []) (mret []) (mret []).

(** * Properties *)

(** ** Sequencing *)

Lemma bind_ok {A B} (m : M A) (f : A -> M B) w a w' :
  m w = (ok a, w') -> (m ≫= f) w = f a w'.
Proof. intros Hm. unfold mbind, M_bind. by rewrite Hm. Qed.

Lemma bind_raised {A B} (m : M A) (f : A -> M B) w e w' :
  m w = (raised e, w') -> (m ≫= f) w = (raised e, w').
Proof. intros Hm. unfold mbind, M_bind. by rewrite Hm. Qed.

Lemma lift_ok_bind {A B} (a : A) (f : A -> M B) : (lift (ok a) ≫= f) = f a.
Proof. reflexivity. Qed.

Lemma bind_ok_inv {A B} (m : M A) (f : A -> M B) w b w2 :
  (m ≫= f) w = (ok b, w2) ->
  exists a w1, m w = (ok a, w1) /\ f a w1 = (ok b, w2).
Proof.
  unfold mbind, M_bind. destruct (m w) as [[a|e] w1]; intros Hf.
  - by exists a, w1.
  - discriminate.
Qed.

Lemma set_fs_same w : set_fs (fs w) w = w.
Proof. by destruct w. Qed.

(** ** The file system calls *)

Lemma lookup_node_cons f name p : lookup_node f (name :: p) = f !! (name :: p).
Proof. reflexivity. Qed.

Lemma longer_ne (p q : Path) : length p < length q -> p ≠ q.
Proof. intros Hlt ->. lia. Qed.

Lemma unless_is_dir_dir p e w :
  lookup_node (fs w) p = Some Dir -> unless_is_dir p e w = (ok tt, w).
Proof.
  intros Hd. unfold unless_is_dir, is_dir, mbind, M_bind. by rewrite Hd.
Qed.

Lemma unless_is_dir_world p e w : snd (unless_is_dir p e w) = w.
Proof.
  unfold unless_is_dir, is_dir, mbind, M_bind.
  by destruct (lookup_node (fs w) p) as [[|c]|].
Qed.

Lemma unless_is_dir_ok p e w w' :
  unless_is_dir p e w = (ok tt, w') -> w' = w /\ lookup_node (fs w) p = Some Dir.
Proof.
  unfold unless_is_dir, is_dir, mbind, M_bind.
  destruct (lookup_node (fs w) p) as [[|c]|]; cbn; intros Heq;
    try discriminate.
  by inversion Heq.
Qed.

(** A directory that is there is left as it is. *)
Lemma mkdir_existing p w :
  lookup_node (fs w) p = Some Dir -> mkdir p w = (ok tt, w).
Proof.
  intros Hd.
  assert (Hos : os_mkdir p w = (raised FileExistsError, w))
    by (unfold os_mkdir; by rewrite Hd).
  destruct p as [|name up]; cbn [mkdir]; unfold try_catch; rewrite Hos;
    by apply unless_is_dir_dir.
Qed.

(** The last step of [mkdir]: a missing directory under a directory. *)
Lemma mkdir_child name up w :
  fs w !! (name :: up) = None ->
  lookup_node (fs w) up = Some Dir ->
  mkdir (name :: up) w = (ok tt, set_fs (<[name :: up := Dir]> (fs w)) w).
Proof.
  intros Hnone Hup. cbn [mkdir]. unfold try_catch, os_mkdir.
  rewrite lookup_node_cons, Hnone. cbn [parent tail]. by rewrite Hup.
Qed.

Lemma mkdir_cons name up :
  mkdir (name :: up)
  = try_catch (os_mkdir (name :: up)) (fun e =>
      match e with
      | FileNotFoundError => mkdir up;; mkdir_leaf (name :: up)
      | _ => unless_is_dir (name :: up) e
      end).
Proof. reflexivity. Qed.

(** Two steps of [mkdir]: neither the directory nor its parent, which is
    under the root, is there. *)
Lemma mkdir_grandchild name up w :
  fs w !! [up] = None ->
  fs w !! [name; up] = None ->
  mkdir [name; up] w
  = (ok tt, set_fs (<[[name; up] := Dir]> (<[[up] := Dir]> (fs w))) w).
Proof.
  intros Hup Hp. rewrite mkdir_cons. unfold try_catch at 1, os_mkdir at 1.
  cbn [lookup_node parent tail]. rewrite Hp, Hup.
  cbn [missing_error lookup_node].
  rewrite (bind_ok _ _ _ tt (set_fs (<[[up] := Dir]> (fs w)) w))
    by by apply mkdir_child.
  unfold mkdir_leaf, try_catch, os_mkdir. cbn [lookup_node parent tail fs set_fs].
  rewrite lookup_insert_ne, Hp by done.
  by rewrite lookup_insert_eq.
Qed.

Lemma mkdir_leaf_ok p w w' :
  mkdir_leaf p w = (ok tt, w') -> lookup_node (fs w') p = Some Dir.
Proof.
  unfold mkdir_leaf, try_catch, os_mkdir.
  destruct (lookup_node (fs w) p) as [n|] eqn:Hp.
  - intros [-> Hd]%unless_is_dir_ok. done.
  - destruct (lookup_node (fs w) (parent p)) as [[|c]|] eqn:Hup.
    + intros Heq. inversion Heq; subst. destruct p as [|name up]; [done|].
      cbn. apply lookup_insert_eq.
    + intros [-> Hd]%unless_is_dir_ok. done.
    + destruct (missing_error (fs w) (parent p)); try discriminate;
        by intros [-> Hd]%unless_is_dir_ok.
Qed.

(** When [mkdir] returns, the directory is there. *)
Lemma mkdir_ok_is_dir p w w' :
  mkdir p w = (ok tt, w') -> lookup_node (fs w') p = Some Dir.
Proof.
  destruct p as [|name up]; [done|].
  cbn [mkdir]. unfold try_catch.
  destruct (os_mkdir (name :: up) w) as [[[]|e] w1] eqn:Hos.
  - intros Heq. inversion Heq; subst. revert Hos. unfold os_mkdir.
    destruct (lookup_node (fs w) (name :: up)); [discriminate|].
    destruct (lookup_node (fs w) (parent (name :: up))) as [[|c]|];
      try discriminate.
    intros Heq'. inversion Heq'. cbn. apply lookup_insert_eq.
  - destruct e; try (by intros [-> Hd]%unless_is_dir_ok).
    intros (a & w2 & _ & Hleaf)%bind_ok_inv.
    by apply mkdir_leaf_ok in Hleaf.
Qed.

(** What [mkdir] leaves alone: the events, the session file, and every
    path longer than the one it makes. *)

Lemma os_mkdir_frame p w :
  same_but_fs w (snd (os_mkdir p w)) /\
  forall q : Path, length p < length q -> fs (snd (os_mkdir p w)) !! q = fs w !! q.
Proof.
  unfold os_mkdir.
  destruct (lookup_node (fs w) p); [done|].
  destruct (lookup_node (fs w) (parent p)) as [[|c]|]; try done.
  split; [done|]. intros q Hq. cbn. apply lookup_insert_ne. by apply longer_ne.
Qed.

Lemma mkdir_leaf_frame p w :
  same_but_fs w (snd (mkdir_leaf p w)) /\
  forall q : Path, length p < length q -> fs (snd (mkdir_leaf p w)) !! q = fs w !! q.
Proof.
  unfold mkdir_leaf, try_catch.
  pose proof (os_mkdir_frame p w) as Hos.
  destruct (os_mkdir p w) as [[[]|e] w1]; [done|].
  cbn in Hos.
  destruct e; cbn; rewrite ?unless_is_dir_world; done.
Qed.

Lemma mkdir_frame p : forall w,
  same_but_fs w (snd (mkdir p w)) /\
  forall q : Path, length p < length q -> fs (snd (mkdir p w)) !! q = fs w !! q.
Proof.
  induction p as [|name up IH]; intros w.
  - cbn. unfold try_catch. cbn. rewrite unless_is_dir_world. done.
  - cbn [mkdir]. unfold try_catch.
    pose proof (os_mkdir_frame (name :: up) w) as Hos.
    destruct (os_mkdir (name :: up) w) as [[[]|e] w1]; [done|].
    cbn in Hos.
    destruct e; cbn; rewrite ?unless_is_dir_world; try done.
    unfold mbind, M_bind.
    destruct Hos as [[Hev1 Hse1] Hfs1].
    destruct (IH w1) as [[Hev2 Hse2] Hfs2].
    destruct (mkdir up w1) as [[[]|e] w2]; cbn in *.
    + destruct (mkdir_leaf_frame (name :: up) w2) as [[Hev3 Hse3] Hfs3].
      split; [split; congruence|].
      intros q Hq. rewrite Hfs3, Hfs2, Hfs1 by (cbn in *; lia). done.
    + split; [split; congruence|].
      intros q Hq. rewrite Hfs2, Hfs1 by (cbn in *; lia). done.
Qed.

Lemma write_file_ok_inv p data w w' :
  write_file p data w = (ok tt, w') ->
  w' = set_fs (<[p := File data]> (fs w)) w /\
  lookup_node (fs w) (parent p) = Some Dir /\
  lookup_node (fs w) p ≠ Some Dir.
Proof.
  unfold write_file.
  destruct (lookup_node (fs w) p) as [[|c]|] eqn:Hp; [discriminate| |];
    destruct (lookup_node (fs w) (parent p)) as [[|c']|]; try discriminate;
    intros Heq; inversion Heq; done.
Qed.

Lemma write_file_ok name up data w :
  lookup_node (fs w) up = Some Dir ->
  fs w !! (name :: up) ≠ Some Dir ->
  write_file (name :: up) data w
  = (ok tt, set_fs (<[name :: up := File data]> (fs w)) w).
Proof.
  intros Hup Hp. unfold write_file. rewrite lookup_node_cons. cbn [parent tail].
  rewrite Hup. by destruct (fs w !! (name :: up)) as [[|c]|].
Qed.

(** Writing again what a file holds changes nothing. *)
Lemma write_file_again name up data w :
  lookup_node (fs w) up = Some Dir ->
  fs w !! (name :: up) = Some (File data) ->
  write_file (name :: up) data w = (ok tt, w).
Proof.
  intros Hup Hp. rewrite write_file_ok; [|done|by rewrite Hp].
  by rewrite insert_id, set_fs_same.
Qed.

Lemma write_file_world p data w :
  snd (write_file p data w) = w \/
  snd (write_file p data w) = set_fs (<[p := File data]> (fs w)) w.
Proof.
  unfold write_file.
  destruct (lookup_node (fs w) p) as [[|c]|];
    destruct (lookup_node (fs w) (parent p)) as [[|c']|]; cbn; auto.
Qed.

(** ** Observations that a command preserves *)

Lemma count_events_app p evs1 evs2 :
  count_events p (evs1 ++ evs2) = count_events p evs1 + count_events p evs2.
Proof. induction evs1 as [|ev evs1 IH]; cbn; [done|]. rewrite IH. lia. Qed.

Section Preserves.
Context {X : Type} (obs : World -> X).

Lemma preserves_ret {A} (a : A) : preserves obs (mret a).
Proof. by intros w. Qed.

Lemma preserves_raise {A} e : preserves obs (@raise A e).
Proof. by intros w. Qed.

Lemma preserves_lift {A} (o : outcome A) : preserves obs (lift o).
Proof. by intros w. Qed.

Lemma preserves_bind {A B} (m : M A) (f : A -> M B) :
  preserves obs m -> (forall a, preserves obs (f a)) -> preserves obs (m ≫= f).
Proof.
  intros Hm Hf w. unfold mbind, M_bind. specialize (Hm w).
  destruct (m w) as [[a|e] w1]; cbn in *; [|done].
  by rewrite Hf.
Qed.

Lemma preserves_for_each {A} (l : list A) (body : A -> M unit) :
  (forall x, preserves obs (body x)) -> preserves obs (for_each l body).
Proof.
  intros Hbody. induction l as [|x l IH]; cbn [for_each].
  - apply preserves_ret.
  - apply preserves_bind; [apply Hbody | by intros _].
Qed.
End Preserves.

Lemma mkdir_preserves_events {X} (obs : list Event -> X) p :
  preserves (fun w => obs (events w)) (mkdir p).
Proof. intros w. destruct (mkdir_frame p w) as [[-> _] _]. done. Qed.

Lemma write_file_preserves_events {X} (obs : list Event -> X) p data :
  preserves (fun w => obs (events w)) (write_file p data).
Proof. intros w. by destruct (write_file_world p data w) as [-> | ->]. Qed.

(** ** Downloads and [_save_post_common] *)

Section SavePost.
Variable env : Env.

Lemma download_ok_inv m dest w w' :
  download env m dest w = (ok tt, w') ->
  exists data,
    fetch env (url m) = Some data /\
    w' = mkWorld (<[dest := File data]> (fs w))
           (events w ++ [Download (url m) dest]) (session_file w) /\
    lookup_node (fs w) (parent dest) = Some Dir.
Proof.
  unfold download, emit, mbind, M_bind.
  destruct (fetch env (url m)) as [data|]; [|discriminate].
  intros (-> & Hup & _)%write_file_ok_inv. by exists data.
Qed.

Lemma download_fresh m name up data w :
  fetch env (url m) = Some data ->
  lookup_node (fs w) up = Some Dir ->
  fs w !! (name :: up) ≠ Some Dir ->
  download env m (name :: up) w
  = (ok tt, mkWorld (<[name :: up := File data]> (fs w))
              (events w ++ [Download (url m) (name :: up)]) (session_file w)).
Proof.
  intros Hf Hup Hp. unfold download, emit, mbind, M_bind. rewrite Hf.
  by rewrite write_file_ok.
Qed.

Lemma download_again m name up data w :
  fetch env (url m) = Some data ->
  lookup_node (fs w) up = Some Dir ->
  fs w !! (name :: up) = Some (File data) ->
  download env m (name :: up) w
  = (ok tt, mkWorld (fs w)
              (events w ++ [Download (url m) (name :: up)]) (session_file w)).
Proof.
  intros Hf Hup Hp. rewrite (download_fresh _ _ _ data); [|done|done|by rewrite Hp].
  by rewrite insert_id.
Qed.

(** Every download is one request, whatever its outcome. *)
Lemma download_events m dest w :
  events (snd (download env m dest w)) = events w ++ [Download (url m) dest].
Proof.
  unfold download, emit, mbind, M_bind.
  destruct (fetch env (url m)) as [data|]; [|done].
  match goal with |- context [write_file dest data ?w0] =>
    by destruct (write_file_world dest data w0) as [-> | ->] end.
Qed.

(** A download to one path is no attempt at another and writes no file
    there. *)
Lemma download_preserves_other m (dest q : Path) :
  dest ≠ q ->
  preserves (fun w => (fs w !! q, attempts q w)) (download env m dest).
Proof.
  intros Hne w. unfold download, emit, mbind, M_bind, attempts.
  destruct (fetch env (url m)) as [data|]; cbn.
  - match goal with |- context [write_file dest data ?w0] =>
      destruct (write_file_world dest data w0) as [-> | ->] end; cbn;
      rewrite count_events_app; cbn; rewrite bool_decide_eq_false_2 by done;
      rewrite ?lookup_insert_ne by done; f_equal; lia.
  - rewrite count_events_app; cbn. rewrite bool_decide_eq_false_2 by done.
    f_equal; lia.
Qed.

Lemma mkdir_preserves_longer (p q : Path) :
  length p < length q ->
  preserves (fun w => (fs w !! q, attempts q w)) (mkdir p).
Proof.
  intros Hlt w. destruct (mkdir_frame p w) as [[Hev _] Hfs].
  unfold attempts. by rewrite Hev, Hfs.
Qed.

Lemma write_file_preserves_other (p q : Path) data :
  p ≠ q ->
  preserves (fun w => (fs w !! q, attempts q w)) (write_file p data).
Proof.
  intros Hne w. destruct (write_file_world p data w) as [-> | ->]; [done|].
  unfold attempts. cbn. by rewrite lookup_insert_ne.
Qed.

Lemma lookup_node_insert_child f name (p : Path) n :
  lookup_node (<[name :: p := n]> f) p = lookup_node f p.
Proof.
  destruct p as [|x p]; [done|]. cbn. apply lookup_insert_ne.
  apply not_eq_sym, longer_ne. cbn. lia.
Qed.

Context {A : Type} `{Saveable A}.

Lemma save_post_common_steps (item : A) (loc : Path) :
  _save_post_common env item loc =
  (mkdir loc;;
   write_file ("info.json" :: loc) (data_dict item);;
   download env (primary_photo item) ("primary" :: loc);;
   download env (secondary_photo item) ("secondary" :: loc);;
   if present (bts_video item)
   then download env (bts_video item) ("bts" :: loc)
   else mret tt).
Proof. reflexivity. Qed.

Lemma save_post_common_saved (item : A) loc w w1 :
  _save_post_common env item loc w = (ok tt, w1) -> saved env item loc (fs w1).
Proof.
  rewrite save_post_common_steps.
  intros ([] & wa & Hmk & Hrest)%bind_ok_inv.
  apply mkdir_ok_is_dir in Hmk.
  apply bind_ok_inv in Hrest as ([] & wb & Hwr & Hrest).
  apply write_file_ok_inv in Hwr as (-> & _ & _).
  apply bind_ok_inv in Hrest as ([] & wc & Hp & Hrest).
  apply download_ok_inv in Hp as (b1 & Hf1 & -> & _).
  apply bind_ok_inv in Hrest as ([] & wd & Hs & Hrest).
  apply download_ok_inv in Hs as (b2 & Hf2 & -> & _).
  cbn [fs set_fs] in *.
  destruct (present (bts_video item)) eqn:Hbts.
  - apply download_ok_inv in Hrest as (b3 & Hf3 & -> & _). cbn [fs].
    split; [|split; [|split; [|split]]].
    + by rewrite !lookup_node_insert_child.
    + by rewrite !lookup_insert_ne, lookup_insert_eq by done.
    + exists b1. by rewrite !lookup_insert_ne, lookup_insert_eq by done.
    + exists b2. by rewrite !lookup_insert_ne, lookup_insert_eq by done.
    + intros _. exists b3. by rewrite lookup_insert_eq.
  - inversion Hrest; subst. cbn [fs].
    split; [|split; [|split; [|split]]].
    + by rewrite !lookup_node_insert_child.
    + by rewrite !lookup_insert_ne, lookup_insert_eq by done.
    + exists b1. by rewrite !lookup_insert_ne, lookup_insert_eq by done.
    + exists b2. by rewrite lookup_insert_eq.
    + intros Hyes. congruence.
Qed.

Lemma save_post_common_again (item : A) loc w1 :
  saved env item loc (fs w1) ->
  exists w2, _save_post_common env item loc w1 = (ok tt, w2) /\ fs w2 = fs w1.
Proof.
  intros (Hd & Hi & (b1 & Hf1 & Hp) & (b2 & Hf2 & Hs) & Hb).
  rewrite save_post_common_steps.
  rewrite (bind_ok _ _ _ tt w1) by by apply mkdir_existing.
  rewrite (bind_ok _ _ _ tt w1) by by apply write_file_again.
  erewrite bind_ok by by apply (download_again _ _ _ b1).
  erewrite bind_ok by by apply (download_again _ _ _ b2).
  destruct (present (bts_video item)).
  - destruct Hb as (b3 & Hf3 & Hb); [done|].
    erewrite (download_again _ _ _ b3) by done. by eexists.
  - by eexists.
Qed.

End SavePost.

(** The requests of a run for an item without bts video: downloads of
    the primary and of the secondary photo, in this order, as far as the
    run got. *)
Lemma save_post_common_requests
    (env : Env) {A} `{Saveable A} (item : A) (loc : Path) (w : World) :
  present (bts_video item) = false ->
  exists evs,
    events (snd (_save_post_common env item loc w)) = events w ++ evs /\
    evs `prefix_of`
      [Download (url (primary_photo item)) ("primary" :: loc);
       Download (url (secondary_photo item)) ("secondary" :: loc)].
Proof.
  intros Habsent. rewrite save_post_common_steps, Habsent.
  unfold mbind, M_bind.
  destruct (mkdir_frame loc w) as [[Hmk _] _].
  destruct (mkdir loc w) as [[[]|e] wa]; cbn in Hmk |- *.
  2:{ exists []. rewrite app_nil_r. split; [done|apply prefix_nil]. }
  pose proof (write_file_preserves_events id ("info.json" :: loc)
                (data_dict item) wa) as Hwr.
  destruct (write_file _ _ wa) as [[[]|e] wb]; cbn in Hwr |- *.
  2:{ exists []. rewrite app_nil_r. split; [congruence|apply prefix_nil]. }
  pose proof (download_events env (primary_photo item) ("primary" :: loc) wb)
    as Hp.
  destruct (download env (primary_photo item) _ wb) as [[[]|e] wc]; cbn in Hp |- *.
  2:{ eexists [_]. split; [by rewrite Hp, Hwr, Hmk|].
      apply prefix_cons, prefix_nil. }
  pose proof (download_events env (secondary_photo item) ("secondary" :: loc) wc)
    as Hs.
  exists [Download (url (primary_photo item)) ("primary" :: loc);
          Download (url (secondary_photo item)) ("secondary" :: loc)].
  split; [|done].
  destruct (download env (secondary_photo item) _ wc) as [[[]|e] wd];
    cbn in Hs |- *; rewrite Hs, Hp, Hwr, Hmk, <- app_assoc; done.
Qed.

(** C6. Saving an item whose bts video does not exist makes no download
    attempt for it and creates no file for it: whatever the outcome of
    [_save_post_common], its requests are downloads of the primary and of
    the secondary photo only, the number of download attempts to the [bts]
    path and what the file system holds at that path are as before.  The
    existence flag is the guard of the only [download] of the video. *)
Theorem absent_bts_video_is_never_downloaded
    (env : Env) {A} `{Saveable A} (item : A) (loc : Path) (w : World) :
  exists_ (bts_video item) = false ->
  (exists evs,
     events (snd (_save_post_common env item loc w)) = events w ++ evs /\
     evs `prefix_of`
       [Download (url (primary_photo item)) (joinpath loc "primary");
        Download (url (secondary_photo item)) (joinpath loc "secondary")]) /\
  attempts (joinpath loc "bts") (snd (_save_post_common env item loc w))
  = attempts (joinpath loc "bts") w /\
  fs (snd (_save_post_common env item loc w)) !! joinpath loc "bts"
  = fs w !! joinpath loc "bts".
Proof.
  intros Habsent. unfold exists_ in Habsent.
  split; [by apply save_post_common_requests|].
  change (joinpath loc "bts") with ("bts" :: loc).
  assert (Hpre : preserves
            (fun w => (fs w !! ("bts" :: loc), attempts ("bts" :: loc) w))
            (_save_post_common env item loc)).
  { rewrite save_post_common_steps, Habsent.
    apply preserves_bind; [apply mkdir_preserves_longer; cbn; lia|intros _].
    apply preserves_bind; [by apply write_file_preserves_other|intros _].
    apply preserves_bind; [by apply download_preserves_other|intros _].
    apply preserves_bind; [by apply download_preserves_other|intros _].
    apply preserves_ret. }
  specialize (Hpre w). cbn beta in Hpre. by inversion Hpre.
Qed.

Lemma absent_bts_video_witness :
  (exists evs,
     events (snd (_save_post_common sample_env (sample_memory "2024-01-01")
                    ["2024-01-01"; "mem"] empty_world))
     = events empty_world ++ evs /\
     evs `prefix_of`
       [Download (url (primary_photo (sample_memory "2024-01-01")))
          (joinpath ["2024-01-01"; "mem"] "primary");
        Download (url (secondary_photo (sample_memory "2024-01-01")))
          (joinpath ["2024-01-01"; "mem"] "secondary")]) /\
  attempts (joinpath ["2024-01-01"; "mem"] "bts")
    (snd (_save_post_common sample_env (sample_memory "2024-01-01")
            ["2024-01-01"; "mem"] empty_world))
  = attempts (joinpath ["2024-01-01"; "mem"] "bts") empty_world /\
  fs (snd (_save_post_common sample_env (sample_memory "2024-01-01")
            ["2024-01-01"; "mem"] empty_world))
    !! joinpath ["2024-01-01"; "mem"] "bts"
  = fs empty_world !! joinpath ["2024-01-01"; "mem"] "bts".
Proof.
  apply (absent_bts_video_is_never_downloaded sample_env
           (sample_memory "2024-01-01") ["2024-01-01"; "mem"] empty_world).
  reflexivity.
Defined.

(** C7. Saving the same item into the same directory twice is idempotent:
    if a first run of [_save_post_common] returned, a second run from the
    world it left returns too (the directory and its parents being there
    is no failure), and leaves the file system as it was, with the sidecar
    [info.json] holding the same text, written again. *)
Theorem rematerializing_is_idempotent
    (env : Env) {A} `{Saveable A} (item : A) (loc : Path) (w w1 : World) :
  _save_post_common env item loc w = (ok tt, w1) ->
  exists w2,
    _save_post_common env item loc w1 = (ok tt, w2) /\
    fs w2 = fs w1 /\
    fs w1 !! joinpath loc "info.json" = Some (File (data_dict item)) /\
    fs w2 !! joinpath loc "info.json" = Some (File (data_dict item)).
Proof.
  intros Hfirst. apply save_post_common_saved in Hfirst.
  destruct (save_post_common_again env item loc w1 Hfirst) as (w2 & Hrun & Hfs).
  exists w2. rewrite Hfs. destruct Hfirst as (_ & Hinfo & _). done.
Qed.

Lemma rematerializing_witness :
  exists w2,
    _save_post_common sample_env (sample_memory "2024-01-01")
      ["2024-01-01"; "mem"]
      (snd (_save_post_common sample_env (sample_memory "2024-01-01")
              ["2024-01-01"; "mem"] empty_world)) = (ok tt, w2) /\
    fs w2 = fs (snd (_save_post_common sample_env (sample_memory "2024-01-01")
                       ["2024-01-01"; "mem"] empty_world)) /\
    fs (snd (_save_post_common sample_env (sample_memory "2024-01-01")
               ["2024-01-01"; "mem"] empty_world))
      !! joinpath ["2024-01-01"; "mem"] "info.json"
    = Some (File (data_dict (sample_memory "2024-01-01"))) /\
    fs w2 !! joinpath ["2024-01-01"; "mem"] "info.json"
    = Some (File (data_dict (sample_memory "2024-01-01"))).
Proof.
  apply (rematerializing_is_idempotent sample_env (sample_memory "2024-01-01")
           ["2024-01-01"; "mem"] empty_world
           (snd (_save_post_common sample_env (sample_memory "2024-01-01")
                   ["2024-01-01"; "mem"] empty_world))).
  vm_compute. reflexivity.
Defined.

(** ** The feed getters *)

Lemma feedgetter_lookup bf :
  FEEDGETTER_MAP bf !! "friends-v1" = Some (get_friendsv1_feed bf) /\
  FEEDGETTER_MAP bf !! "friends-of-friends" = Some (get_fof_feed bf) /\
  FEEDGETTER_MAP bf !! "memories" = Some (get_memories_feed bf) /\
  FEEDGETTER_MAP bf !! "memories-v1" = Some (get_memoriesv1_feed bf) /\
  FEEDGETTER_MAP bf !! "friends" = None /\
  FEEDGETTER_MAP bf !! "discovery" = None.
Proof. repeat split; reflexivity. Qed.

(** C1. The kinds [friends] and [discovery], which the command line
    accepts, have no entry in [FEEDGETTER_MAP]: [feed] raises [KeyError]
    on them before anything is fetched or written.  The four other kinds
    are dispatched to their getter. *)
Theorem feed_lookup_fails_on_friends_and_discovery
    (env : Env) (bf : BeFake) (save_location : string)
    (realmoji_location instant_realmoji_location : option string) (w : World) :
  In "friends" feed_choices /\ In "discovery" feed_choices /\
  feed env bf "friends" save_location realmoji_location
    instant_realmoji_location w = (raised (KeyError "friends"), w) /\
  feed env bf "discovery" save_location realmoji_location
    instant_realmoji_location w = (raised (KeyError "discovery"), w) /\
  (forall kind, In kind feed_choices -> kind <> "friends" -> kind <> "discovery" ->
     is_Some (FEEDGETTER_MAP bf !! kind)).
Proof.
  destruct (feedgetter_lookup bf) as (H1 & H2 & H3 & H4 & H5 & H6).
  split; [cbn; tauto|]. split; [cbn; tauto|].
  split; [unfold feed; by rewrite H5|].
  split; [unfold feed; by rewrite H6|].
  intros kind Hin Hf Hd. cbn in Hin.
  destruct Hin as [<-|[<-|[<-|[<-|[<-|[<-|[]]]]]]]; try done; eauto.
Qed.

(** ** The realmoji templates *)

Lemma py_or_same (a : option string) : py_or a a = a.
Proof. by destruct a as [[|c s]|]. Qed.

(** Without the option for instant realmojis the command behaves as if
    the template for non-instant realmojis had been given for them. *)
Lemma feed_without_instant_location
    (env : Env) (bf : BeFake) (feed_id save_location : string)
    (realmoji_location : option string) :
  feed env bf feed_id save_location realmoji_location None
  = feed env bf feed_id save_location realmoji_location realmoji_location.
Proof. unfold feed. by rewrite py_or_same. Qed.

(** Which of the two templates a realmoji gets depends only on whether its
    type is [instant]. *)
Lemma pick_location_by_type
    (realmoji_location instant_realmoji_location : option string)
    (emoji emoji' : Realmoji) :
  String.eqb (emoji_type emoji) "instant" = String.eqb (emoji_type emoji') "instant" ->
  pick_location realmoji_location instant_realmoji_location emoji
  = pick_location realmoji_location instant_realmoji_location emoji'.
Proof. intros Hsame. unfold pick_location. by rewrite Hsame. Qed.

Lemma pick_location_same (template : option string) (emoji : Realmoji) :
  pick_location template template emoji = template.
Proof. unfold pick_location. by destruct (String.eqb _ _). Qed.

(** ** [format] *)

Section FormatFacts.
Variable py_render : string -> field -> gmap string string -> outcome string.

Lemma get_field_unknown kwargs f :
  kwargs !! arg_name f = None ->
  exists e, get_field py_render kwargs f = raised e.
Proof.
  intros Hnone. unfold get_field.
  destruct (arg_name f) as [|c s] eqn:Hname; [by eexists|].
  destruct (get_integer 0 (String c s)); try by eexists.
  rewrite Hnone. by eexists.
Qed.

(** A placeholder whose name is not supplied makes [format] raise. *)
Lemma build_unknown kwargs name ps :
  In name (placeholders_of ps) ->
  kwargs !! name = None ->
  exists e, build py_render kwargs ps = raised e.
Proof.
  intros Hin Hnone. induction ps as [|[c|f|e] ps IH]; cbn in *.
  - done.
  - destruct (IH Hin) as [e ->]. by eexists.
  - destruct (get_field py_render kwargs f) as [v|e] eqn:Hget; [|by eexists].
    destruct Hin as [<-|Hin].
    + destruct (get_field_unknown kwargs f Hnone) as [e He]. congruence.
    + destruct (IH Hin) as [e ->]. by eexists.
  - by eexists.
Qed.

Lemma format_unknown kwargs name template :
  In name (placeholders template) ->
  kwargs !! name = None ->
  exists e, format py_render template kwargs = raised e.
Proof. apply build_unknown. Qed.

Lemma list_to_map_unknown (l : list (string * string)) name :
  ~ In name (map fst l) ->
  (list_to_map l : gmap string string) !! name = None.
Proof.
  intros Hnot. apply not_elem_of_list_to_map_1.
  by rewrite list_elem_of_In.
Qed.

(** Text without braces is copied. *)
Lemma scan_text s rest :
  brace_free s = true ->
  scan InText (String.append s rest)
  = map TLit (list_ascii_of_string s) ++ scan InText rest.
Proof.
  induction s as [|c s IH]; [done|]. cbn [brace_free].
  intros [[Hl Hr]%andb_prop Hs]%andb_prop.
  apply negb_true_iff in Hl, Hr.
  change (String.append (String c s) rest) with (String c (String.append s rest)).
  cbn [scan]. rewrite Hl, Hr. cbn. by rewrite IH.
Qed.

Lemma scan_date rest :
  scan InText (String.append "{date}" rest)
  = TField (mkField "date" None "") :: scan InText rest.
Proof. reflexivity. Qed.

Lemma build_text kwargs cs ps :
  build py_render kwargs (map TLit cs ++ ps)
  = match build py_render kwargs ps with
    | ok r => ok (String.append (string_of_list_ascii cs) r)
    | raised e => raised e
    end.
Proof.
  induction cs as [|c cs IH]; cbn.
  - by destruct (build py_render kwargs ps).
  - rewrite IH. by destruct (build py_render kwargs ps).
Qed.

(** Every [{date}] of a string that has no other brace is replaced. *)
Lemma format_fills_date value segs :
  forallb segment_ok segs = true ->
  format py_render (unparse segs) (list_to_map [("date", value)])
  = ok (fill value segs).
Proof.
  unfold format, pieces.
  induction segs as [|[s|] segs IH]; cbn [forallb segment_ok unparse fill].
  - done.
  - intros [Hs Hsegs]%andb_prop. rewrite scan_text by done.
    rewrite build_text, IH by done.
    by rewrite string_of_list_ascii_of_string.
  - intros Hsegs. rewrite scan_date. cbn [build].
    rewrite IH by done. reflexivity.
Qed.

End FormatFacts.

(** The scanner on strings CPython 3.11 was asked about. *)
Example format_cpython_cases :
  let kwargs : gmap string string :=
    list_to_map [("user", "alice"); ("date", "{date}")] in
  let fmt template := format (py_render sample_env) template kwargs in
  fmt "{user}/{date}" = ok "alice/{date}" /\
  fmt "{{x}}/{date}" = ok "{x}/{date}" /\
  fmt "{{{user}}}" = ok "{alice}" /\
  fmt "{user}}}" = ok "alice}" /\
  fmt "{foo.bar}" = raised (KeyError "foo") /\
  fmt "{foo[}]!r:>{w}}" = raised (KeyError "foo") /\
  fmt "{date}{foo} }" = raised (KeyError "foo") /\
  fmt "{ user }" = raised (KeyError " user ") /\
  fmt "{}" = raised IndexError /\
  fmt "{09}" = raised IndexError /\
  fmt "{9223372036854775808}"
  = raised (ValueError "Too many decimal digits in format string") /\
  fmt "{user" = raised (ValueError "expected '}' before end of string") /\
  fmt "{user}{" = raised (ValueError "Single '{' encountered in format string") /\
  fmt "{user}}" = raised (ValueError "Single '}' encountered in format string") /\
  fmt "{us{er}" = raised (ValueError "unexpected '{' in field name") /\
  fmt "{user!" = raised (ValueError "end of string while looking for conversion specifier") /\
  fmt "{user!rx}" = raised (ValueError "expected ':' after conversion specifier") /\
  fmt "{user:{" = raised (ValueError "unmatched '{' in format spec").
Proof. cbv zeta. repeat split; reflexivity. Qed.

Example joinpath_cases :
  joinpath ["befake"; "home"] "/mem/2024-01-01" = ["2024-01-01"; "mem"] /\
  joinpath ["befake"; "home"] "bob/./alice//x" = ["x"; "alice"; "bob"; "befake"; "home"] /\
  joinpath ["befake"; "home"] "" = ["befake"; "home"] /\
  parent (joinpath ["befake"; "home"] "bob/alice") = ["bob"; "befake"; "home"].
Proof. repeat split; reflexivity. Qed.

(** ** Resolving the templates *)

Section Templates.
Variable env : Env.

Lemma download_preserves_date_requests m dest :
  preserves date_requests (download env m dest).
Proof.
  intros w. unfold date_requests. rewrite download_events, count_events_app.
  cbn. lia.
Qed.

Lemma mkdir_preserves_date_requests p : preserves date_requests (mkdir p).
Proof. apply (mkdir_preserves_events (count_events is_date_request)). Qed.

(** What the second [format] does when [{date}] is in the string: one
    request for the date, then the substitution. *)
Lemma second_pass_requests emoji s w :
  contains "{date}" s = true ->
  second_pass env emoji s w
  = (format (py_render env) s
       (list_to_map [("date", dt_format (emoji_date emoji) date_format)]),
     after_event (DateRequest (emoji_id emoji)) w).
Proof. intros Hin. unfold second_pass. rewrite Hin. reflexivity. Qed.

Lemma second_pass_skips emoji s w :
  contains "{date}" s = false -> second_pass env emoji s w = (ok s, w).
Proof. intros Hin. unfold second_pass. by rewrite Hin. Qed.

Lemma date_requests_after_event ev w :
  date_requests (after_event ev w)
  = date_requests w + (if is_date_request ev then 1 else 0).
Proof. unfold date_requests. cbn. rewrite count_events_app. cbn. lia. Qed.

Lemma save_realmoji_after_first_pass feed_id item post_date post rl irl emoji s w :
  first_pass env feed_id item post_date post (pick_location rl irl emoji) emoji
  = ok s ->
  _save_realmoji env feed_id item post_date post rl irl emoji w
  = (second_pass env emoji s ≫= fun path =>
       mkdir (parent (joinpath (BASE_DIR env) path));;
       download env (emoji_photo emoji) (joinpath (BASE_DIR env) path)) w.
Proof. intros Hfirst. unfold _save_realmoji. by rewrite Hfirst. Qed.

Lemma save_realmoji_tail_preserves emoji path :
  preserves date_requests
    (mkdir (parent (joinpath (BASE_DIR env) path));;
     download env (emoji_photo emoji) (joinpath (BASE_DIR env) path)).
Proof.
  apply preserves_bind; [apply mkdir_preserves_date_requests|intros _].
  apply download_preserves_date_requests.
Qed.

Lemma save_item_memories save_location rl irl m :
  save_item env "memories" save_location rl irl (ItMemory m)
  = (s ← lift (format (py_render env) save_location
                 (list_to_map [("date", memory_day m)]));
     _save_post_common env m (joinpath (BASE_DIR env) s)).
Proof. reflexivity. Qed.

Lemma save_item_memories_v1 save_location rl irl m :
  save_item env "memories-v1" save_location rl irl (ItMemory m)
  = (s ← lift (format (py_render env) save_location
                 (list_to_map [("date", memory_day m);
                               ("post_id", memory_id m)]));
     _save_post_common env m (joinpath (BASE_DIR env) s)).
Proof. reflexivity. Qed.

End Templates.

(** C3. A template with a placeholder whose name is not among the names
    the [format] call supplies makes the resolution raise, and the world is
    then as it was: no directory made, no asset downloaded, no date
    requested.  This holds for the save location of a memory, of a
    memories-v1 item and of a friends-v1 post, and for the location of a
    realmoji. *)
Theorem unknown_placeholder_fails_before_any_download
    (env : Env) (template name : string) (w : World)
    (feed_id post_date : string) (rl irl : option string)
    (memory : Memory) (item : Moment) (post : Post) (emoji : Realmoji) :
  In name (placeholders template) ->
  (~ In name memory_fields ->
   exists e, save_item env "memories" template rl irl (ItMemory memory) w
             = (raised e, w)) /\
  (~ In name memoryv1_fields ->
   exists e, save_item env "memories-v1" template rl irl (ItMemory memory) w
             = (raised e, w)) /\
  (~ In name post_fields ->
   exists e, save_post env feed_id template rl irl item post w = (raised e, w)) /\
  (~ In name realmoji_fields ->
   pick_location rl irl emoji = Some template ->
   exists e, _save_realmoji env feed_id item post_date post rl irl emoji w
             = (raised e, w)).
Proof.
  intros Hin. repeat split.
  - intros Hnot.
    destruct (format_unknown (py_render env)
                (list_to_map [("date", memory_day memory)]) name template Hin)
      as [e He]; [by apply list_to_map_unknown|].
    exists e. rewrite save_item_memories. unfold mbind, M_bind, lift.
    by rewrite He.
  - intros Hnot.
    destruct (format_unknown (py_render env)
                (list_to_map [("date", memory_day memory);
                              ("post_id", memory_id memory)]) name template Hin)
      as [e He]; [by apply list_to_map_unknown|].
    exists e. rewrite save_item_memories_v1. unfold mbind, M_bind, lift.
    by rewrite He.
  - intros Hnot.
    destruct (format_unknown (py_render env)
                (list_to_map
                   [("user", user_username item);
                    ("date", dt_format (creation_date post) date_format);
                    ("feed_id", feed_id); ("post_id", post_id post);
                    ("notification_id", notification_id item)])
                name template Hin)
      as [e He]; [by apply list_to_map_unknown|].
    exists e. unfold save_post, post_location, mbind, M_bind, lift. by rewrite He.
  - intros Hnot Hpick.
    destruct (format_unknown (py_render env)
                (realmoji_kwargs feed_id item post_date post emoji)
                name template Hin)
      as [e He]; [by apply list_to_map_unknown|].
    exists e. unfold _save_realmoji, first_pass, mbind, M_bind, lift.
    rewrite Hpick. cbn [format_opt]. by rewrite He.
Qed.

Lemma unknown_placeholder_witness :
  (exists e, save_item sample_env "memories" "/mem/{day}" None None
               (ItMemory (sample_memory "2024-01-01")) empty_world
             = (raised e, empty_world)) /\
  (exists e, save_item sample_env "memories-v1" "/mem/{day}" None None
               (ItMemory (sample_memory "2024-01-01")) empty_world
             = (raised e, empty_world)) /\
  (exists e, save_post sample_env "friends-v1" "/mem/{day}" None None
               sample_moment sample_post empty_world
             = (raised e, empty_world)) /\
  (exists e, _save_realmoji sample_env "friends-v1" sample_moment
               "2024-01-01_12-00-00" sample_post None (Some "/mem/{day}")
               (sample_realmoji "instant" "alice") empty_world
             = (raised e, empty_world)).
Proof.
  destruct (unknown_placeholder_fails_before_any_download sample_env
              "/mem/{day}" "day" empty_world "friends-v1" "2024-01-01_12-00-00"
              None (Some "/mem/{day}") (sample_memory "2024-01-01")
              sample_moment sample_post (sample_realmoji "instant" "alice"))
    as (Hmem & Hmemv1 & Hpost & Hemoji).
  - cbn. auto.
  - repeat split.
    + apply Hmem. cbn. intuition discriminate.
    + apply Hmemv1. cbn. intuition discriminate.
    + apply Hpost. cbn. intuition discriminate.
    + apply Hemoji; [cbn; intuition discriminate | reflexivity].
Defined.

(** C4. If [{date}] is not in the location of a realmoji after the first
    [format], saving the realmoji does not ask for its date: the number of
    date requests is as before, whatever the outcome. *)
Theorem date_is_not_requested_when_not_in_template
    (env : Env) (feed_id : string) (item : Moment) (post_date : string)
    (post : Post) (rl irl : option string) (emoji : Realmoji)
    (s : string) (w : World) :
  first_pass env feed_id item post_date post (pick_location rl irl emoji) emoji
  = ok s ->
  contains "{date}" s = false ->
  date_requests (snd (_save_realmoji env feed_id item post_date post rl irl emoji w))
  = date_requests w.
Proof.
  intros Hfirst Hnot.
  rewrite (save_realmoji_after_first_pass env _ _ _ _ _ _ _ s) by done.
  rewrite (bind_ok _ _ _ s w) by by apply second_pass_skips.
  apply save_realmoji_tail_preserves.
Qed.

Lemma date_is_not_requested_witness :
  date_requests
    (snd (_save_realmoji sample_env "friends-v1" sample_moment
            "2024-01-01_12-00-00" sample_post
            (Some "never") (Some "{post_user}/{user}")
            (sample_realmoji "instant" "alice") empty_world))
  = date_requests empty_world.
Proof.
  apply (date_is_not_requested_when_not_in_template sample_env "friends-v1"
           sample_moment "2024-01-01_12-00-00" sample_post
           (Some "never") (Some "{post_user}/{user}")
           (sample_realmoji "instant" "alice") "bob/alice" empty_world);
    reflexivity.
Defined.

(** If [{date}] is in the location of a realmoji after the first
    [format], saving the realmoji asks for its date exactly once, however
    often the placeholder occurs and whatever the outcome; and if that
    location has no brace but those of its [{date}] placeholders, the
    second [format] puts the date in the place of every one of them. *)
Theorem date_is_requested_once_and_fills_every_placeholder
    (env : Env) (feed_id : string) (item : Moment) (post_date : string)
    (post : Post) (rl irl : option string) (emoji : Realmoji)
    (s : string) (w : World) :
  first_pass env feed_id item post_date post (pick_location rl irl emoji) emoji
  = ok s ->
  contains "{date}" s = true ->
  date_requests (snd (_save_realmoji env feed_id item post_date post rl irl emoji w))
  = date_requests w + 1 /\
  (forall segs, s = unparse segs -> forallb segment_ok segs = true ->
     second_pass env emoji s w
     = (ok (fill (dt_format (emoji_date emoji) date_format) segs),
        after_event (DateRequest (emoji_id emoji)) w)).
Proof.
  intros Hfirst Hin. split.
  - rewrite (save_realmoji_after_first_pass env _ _ _ _ _ _ _ s) by done.
    unfold mbind at 1, M_bind. rewrite second_pass_requests by done.
    set (w1 := after_event _ w).
    assert (Hw1 : date_requests w1 = date_requests w + 1)
      by (unfold w1; by rewrite date_requests_after_event).
    destruct (format _ _ _) as [path|e]; [|done].
    by rewrite save_realmoji_tail_preserves.
  - intros segs -> Hsegs. rewrite second_pass_requests by done.
    by rewrite format_fills_date.
Qed.

Lemma date_is_requested_once_witness :
  date_requests
    (snd (_save_realmoji sample_env "friends-v1" sample_moment
            "2024-01-01_12-00-00" sample_post None (Some "{user}/{date}/{date}")
            (sample_realmoji "instant" "alice") empty_world))
  = 1 /\
  second_pass sample_env (sample_realmoji "instant" "alice")
    "alice/{date}/{date}" empty_world
  = (ok "alice/2024-01-01/2024-01-01",
     after_event (DateRequest "emoji-of-alice") empty_world).
Proof.
  destruct (date_is_requested_once_and_fills_every_placeholder sample_env
              "friends-v1" sample_moment "2024-01-01_12-00-00" sample_post
              None (Some "{user}/{date}/{date}")
              (sample_realmoji "instant" "alice") "alice/{date}/{date}"
              empty_world) as [Hcount Hfill]; [reflexivity | reflexivity |].
  split; [exact Hcount|].
  apply (Hfill [Text "alice/"; DateHole; Text "/"; DateHole]); reflexivity.
Defined.

(** The scenario of the specification for the resolver. *)
Example resolve_user_date :
  first_pass sample_env "friends-v1" sample_moment "2024-01-01_12-00-00"
    sample_post (Some "{user}/{date}") (sample_realmoji "instant" "alice")
  = ok "alice/{date}" /\
  second_pass sample_env (sample_realmoji "instant" "alice") "alice/{date}"
    empty_world
  = (ok "alice/2024-01-01", after_event (DateRequest "emoji-of-alice") empty_world).
Proof. split; reflexivity. Qed.

(** A template with escaped braces and no [{date}] is saved with the
    braces as text: the escape is valid, and the path without the second
    [format] renders it. *)
Example escaped_braces_without_date_are_saved :
  first_pass sample_env "friends-v1" sample_moment "2024-01-01_12-00-00"
    sample_post (Some "{{x}}/{user}") (sample_realmoji "instant" "alice")
  = ok "{x}/alice" /\
  fst (_save_realmoji sample_env "friends-v1" sample_moment "2024-01-01_12-00-00"
         sample_post None (Some "{{x}}/{user}")
         (sample_realmoji "instant" "alice") empty_world)
  = ok tt /\
  fs (snd (_save_realmoji sample_env "friends-v1" sample_moment
             "2024-01-01_12-00-00" sample_post None (Some "{{x}}/{user}")
             (sample_realmoji "instant" "alice") empty_world))
    !! ["alice"; "{x}"; "befake"; "home"]
  = Some (File "bytes of https://cdn/realmoji/alice").
Proof. vm_compute. repeat split; reflexivity. Qed.

(** C5. The code does not do what the claim says on a template in which
    [{date}] stands next to escaped braces: the first [format] turns
    [{{x}}] into [{x}], [{date}] is in the result and the date is requested
    once, but the second [format], made on the output of the first, then
    raises [KeyError] on [x]: no occurrence of [{date}] is replaced and
    nothing is saved.  With [{{{{date}}}}] the date is requested and the
    result is the text [{date}]. *)
Lemma escaped_braces_are_not_filled :
  first_pass sample_env "friends-v1" sample_moment "2024-01-01_12-00-00"
    sample_post (Some "{{x}}/{date}") (sample_realmoji "instant" "alice")
  = ok "{x}/{date}" /\
  contains "{date}" "{x}/{date}" = true /\
  _save_realmoji sample_env "friends-v1" sample_moment "2024-01-01_12-00-00"
    sample_post None (Some "{{x}}/{date}")
    (sample_realmoji "instant" "alice") empty_world
  = (raised (KeyError "x"),
     after_event (DateRequest "emoji-of-alice") empty_world) /\
  first_pass sample_env "friends-v1" sample_moment "2024-01-01_12-00-00"
    sample_post (Some "{{{{date}}}}") (sample_realmoji "instant" "alice")
  = ok "{{date}}" /\
  second_pass sample_env (sample_realmoji "instant" "alice") "{{date}}"
    empty_world
  = (ok "{date}", after_event (DateRequest "emoji-of-alice") empty_world).
Proof. repeat split; reflexivity. Qed.

(** ** The loop over the feed *)

Lemma for_each_stops {A} (body : A -> M unit) before bad after e : forall w w1 w2,
  for_each before body w = (ok tt, w1) ->
  body bad w1 = (raised e, w2) ->
  for_each (before ++ bad :: after) body w = (raised e, w2).
Proof.
  induction before as [|x before IH]; intros w w1 w2 Hbefore Hbad.
  - cbn in Hbefore. inversion Hbefore; subst. cbn [app for_each].
    by apply bind_raised.
  - cbn [for_each] in Hbefore.
    apply bind_ok_inv in Hbefore as ([] & wx & Hx & Hbefore).
    cbn [app for_each]. rewrite (bind_ok _ _ _ tt wx) by done.
    by apply (IH wx w1).
Qed.

(** C2, as the code has it. The loop of [feed] has no handler: when saving
    one item raises, the traversal ends there with that exception.  The
    items before it have been saved and what they and the failing item
    wrote stays; no item after it is touched, whatever those items are. *)
Theorem failing_item_ends_the_traversal
    (env : Env) (bf : BeFake) (feed_id save_location : string)
    (rl irl : option string) (getter : M (list FeedItem))
    (before after : list FeedItem) (bad : FeedItem) (e : exn)
    (w w0 w1 w2 : World) :
  FEEDGETTER_MAP bf !! feed_id = Some getter ->
  getter w = (ok (before ++ bad :: after), w0) ->
  for_each before (save_item env feed_id save_location rl (py_or irl rl)) w0
  = (ok tt, w1) ->
  save_item env feed_id save_location rl (py_or irl rl) bad w1 = (raised e, w2) ->
  feed env bf feed_id save_location rl irl w = (raised e, w2).
Proof.
  intros Hget Hfeed Hbefore Hbad. unfold feed. rewrite Hget.
  rewrite (bind_ok _ _ _ _ w0 Hfeed).
  by apply (for_each_stops _ before bad after e w0 w1 w2).
Qed.

Lemma failing_item_witness :
  feed sample_env broken_bf "memories" "/mem/{date}" None None empty_world
  = (raised (MediaDownloadError "https://cdn/gone"),
     snd (save_item sample_env "memories" "/mem/{date}" None None
            (ItMemory (broken_memory "2024-01-02"))
            (snd (save_item sample_env "memories" "/mem/{date}" None None
                    (ItMemory (sample_memory "2024-01-01")) empty_world)))).
Proof.
  apply (failing_item_ends_the_traversal sample_env broken_bf "memories"
           "/mem/{date}" None None (get_memories_feed broken_bf)
           [ItMemory (sample_memory "2024-01-01")]
           [ItMemory (sample_memory "2024-01-03")]
           (ItMemory (broken_memory "2024-01-02"))
           (MediaDownloadError "https://cdn/gone")
           empty_world empty_world
           (snd (save_item sample_env "memories" "/mem/{date}" None None
                   (ItMemory (sample_memory "2024-01-01")) empty_world))).
  - reflexivity.
  - reflexivity.
  - vm_compute. reflexivity.
  - vm_compute. reflexivity.
Defined.

(** C2, as stated, fails: with three memories of which the second cannot
    be downloaded, [feed] raises, and the third, which could have been
    saved, is not: its directory is not made and none of its assets is
    requested. *)
Lemma sibling_after_failure_is_not_saved :
  let w' := snd (feed sample_env broken_bf "memories" "/mem/{date}" None None
                   empty_world) in
  fst (feed sample_env broken_bf "memories" "/mem/{date}" None None empty_world)
  = raised (MediaDownloadError "https://cdn/gone") /\
  fs w' !! ["info.json"; "2024-01-01"; "mem"] = Some (File "{}") /\
  fs w' !! ["2024-01-03"; "mem"] = None /\
  fs w' !! ["info.json"; "2024-01-03"; "mem"] = None /\
  attempts ["primary"; "2024-01-03"; "mem"] w' = 0 /\
  fst (save_item sample_env "memories" "/mem/{date}" None None
         (ItMemory (sample_memory "2024-01-03")) w') = ok tt.
Proof. vm_compute. repeat split; reflexivity. Qed.

(** ** Saving into a directory that can be made *)

Section SaveFresh.
Variable env : Env.
Context {A : Type} `{Saveable A}.

(** If the directory can be made, no entry under it is a directory and
    the assets can be fetched, the item is saved, and nothing but the
    entries under the directory changes after [mkdir]. *)
Lemma save_post_common_ok (item : A) (loc : Path) w wa :
  mkdir loc w = (ok tt, wa) ->
  (forall name, fs wa !! (name :: loc) ≠ Some Dir) ->
  fetchable env item ->
  exists w1,
    _save_post_common env item loc w = (ok tt, w1) /\
    saved env item loc (fs w1) /\
    (forall q : Path, (forall name, q ≠ name :: loc) -> fs w1 !! q = fs wa !! q).
Proof.
  intros Hmk Hfree ([b1 Hb1] & [b2 Hb2] & Hbts).
  pose proof (mkdir_ok_is_dir _ _ _ Hmk) as Hdir.
  assert (Hrun : exists w1,
    _save_post_common env item loc w = (ok tt, w1) /\
    (forall q : Path, (forall name, q ≠ name :: loc) -> fs w1 !! q = fs wa !! q)).
  { rewrite save_post_common_steps.
    rewrite (bind_ok _ _ _ tt wa) by done.
    erewrite bind_ok by by apply write_file_ok.
    erewrite bind_ok.
    2:{ apply (download_fresh _ _ _ _ b1); [done| |]; cbn [fs set_fs].
        - by rewrite lookup_node_insert_child.
        - by rewrite lookup_insert_ne. }
    erewrite bind_ok.
    2:{ apply (download_fresh _ _ _ _ b2); [done| |]; cbn [fs set_fs].
        - by rewrite !lookup_node_insert_child.
        - by rewrite !lookup_insert_ne. }
    destruct (present (bts_video item)).
    - destruct Hbts as [b3 Hb3]; [done|].
      erewrite (download_fresh _ _ _ _ b3); [|done| |]; cbn [fs set_fs].
      + eexists. split; [done|]. intros q Hq. cbn [fs].
        by rewrite !lookup_insert_ne.
      + by rewrite !lookup_node_insert_child.
      + by rewrite !lookup_insert_ne.
    - eexists. split; [reflexivity|]. intros q Hq. cbn [fs set_fs].
      by rewrite !lookup_insert_ne. }
  destruct Hrun as (w1 & Hrun & Hframe).
  exists w1. split; [done|]. split; [|done].
  by apply (save_post_common_saved env item loc w).
Qed.

(** What was saved stays saved as long as the directory and the entries
    under it are left alone. *)
Lemma saved_transfer (item : A) (name : string) (up : Path)
    (f f' : gmap Path Node) :
  f' !! (name :: up) = f !! (name :: up) ->
  (forall child, f' !! (child :: name :: up) = f !! (child :: name :: up)) ->
  saved env item (name :: up) f -> saved env item (name :: up) f'.
Proof.
  intros Hloc Hunder. unfold saved. rewrite !lookup_node_cons, Hloc, !Hunder.
  done.
Qed.

End SaveFresh.

(** C8. The [memories] feed with two items dated 2024-01-01 and 2024-01-02
    and the template [/mem/{date}], on a disk with nothing on it and
    with assets that can be fetched: [feed] returns, and afterwards
    [/mem/2024-01-01] and [/mem/2024-01-02] are directories that hold
    [info.json] with the metadata of their item and the files [primary]
    and [secondary] with what was fetched for the two photos. *)
Theorem memories_are_saved_under_their_day
    (env : Env) (bf : BeFake) (rl irl : option string) (m1 m2 : Memory)
    (w w0 : World) :
  get_memories_feed bf w = (ok [ItMemory m1; ItMemory m2], w0) ->
  memory_day m1 = "2024-01-01" ->
  memory_day m2 = "2024-01-02" ->
  fs w0 = ∅ ->
  fetchable env m1 ->
  fetchable env m2 ->
  exists w',
    feed env bf "memories" "/mem/{date}" rl irl w = (ok tt, w') /\
    saved env m1 ["2024-01-01"; "mem"] (fs w') /\
    saved env m2 ["2024-01-02"; "mem"] (fs w').
Proof.
  intros Hfeed Hday1 Hday2 Hempty Hfetch1 Hfetch2.
  destruct (feedgetter_lookup bf) as (_ & _ & Hget & _).
  unfold feed. rewrite Hget. rewrite (bind_ok _ _ _ _ w0 Hfeed).
  cbn [for_each]. rewrite !save_item_memories, Hday1, Hday2.
  change (format (py_render env) "/mem/{date}" (list_to_map [("date", "2024-01-01")]))
    with (@ok string "/mem/2024-01-01").
  change (format (py_render env) "/mem/{date}" (list_to_map [("date", "2024-01-02")]))
    with (@ok string "/mem/2024-01-02").
  rewrite !lift_ok_bind.
  change (joinpath (BASE_DIR env) "/mem/2024-01-01") with ["2024-01-01"; "mem"].
  change (joinpath (BASE_DIR env) "/mem/2024-01-02") with ["2024-01-02"; "mem"].
  (* the first item *)
  assert (Hmk1 : mkdir ["2024-01-01"; "mem"] w0
                 = (ok tt, set_fs (<[["2024-01-01"; "mem"] := Dir]>
                                     (<[["mem"] := Dir]> ∅)) w0)).
  { rewrite mkdir_grandchild by (by rewrite Hempty). by rewrite Hempty. }
  destruct (save_post_common_ok env m1 _ _ _ Hmk1) as (wA & HrunA & HsavedA & HframeA);
    [|done|].
  { intros name. cbn [fs set_fs]. by rewrite !lookup_insert_ne, lookup_empty. }
  cbn [fs set_fs] in HframeA.
  (* the second item *)
  assert (Hmk2 : mkdir ["2024-01-02"; "mem"] wA
                 = (ok tt, set_fs (<[["2024-01-02"; "mem"] := Dir]> (fs wA)) wA)).
  { apply mkdir_child.
    - rewrite HframeA by done. by rewrite !lookup_insert_ne, lookup_empty.
    - rewrite lookup_node_cons, HframeA by done.
      by rewrite lookup_insert_ne, lookup_insert_eq. }
  destruct (save_post_common_ok env m2 _ _ _ Hmk2) as (wB & HrunB & HsavedB & HframeB);
    [|done|].
  { intros name. cbn [fs set_fs]. rewrite lookup_insert_ne by done.
    rewrite HframeA by (intros name'; congruence).
    by rewrite !lookup_insert_ne, lookup_empty. }
  cbn [fs set_fs] in HframeB.
  exists wB. split; [|split; [|done]].
  - rewrite (bind_ok _ _ _ tt wA HrunA). by rewrite (bind_ok _ _ _ tt wB HrunB).
  - apply (saved_transfer env m1 _ _ (fs wA)); [| |done].
    + rewrite HframeB by done. by rewrite lookup_insert_ne.
    + intros child. rewrite HframeB by (intros name'; congruence).
      by rewrite lookup_insert_ne.
Qed.

Lemma memories_are_saved_witness :
  exists w',
    feed sample_env (sample_bf sample_session) "memories" "/mem/{date}" None None
      empty_world = (ok tt, w') /\
    saved sample_env (sample_memory "2024-01-01") ["2024-01-01"; "mem"] (fs w') /\
    saved sample_env (sample_memory "2024-01-02") ["2024-01-02"; "mem"] (fs w').
Proof.
  apply (memories_are_saved_under_their_day sample_env (sample_bf sample_session)
           None None (sample_memory "2024-01-01") (sample_memory "2024-01-02")
           empty_world empty_world).
  - reflexivity.
  - reflexivity.
  - reflexivity.
  - reflexivity.
  - split; [by eexists|]. split; [by eexists|]. cbn. discriminate.
  - split; [by eexists|]. split; [by eexists|]. cbn. discriminate.
Defined.

(** ** Session *)

Section SessionFacts.
Variable env : Env.

Lemma refresh_tokens_refreshes s now w :
  refreshes (snd (refresh_tokens env s now w)) = refreshes w + 1.
Proof.
  unfold refresh_tokens, emit, persist, mbind, M_bind, refreshes.
  destruct (grant env (refresh_token s) now) as [s'|]; cbn;
    rewrite ?count_events_app; cbn; lia.
Qed.

Lemma refresh_tokens_ok s now w s' w' :
  refresh_tokens env s now w = (ok s', w') ->
  grant env (refresh_token s) now = Some s' /\ session_file w' = Some s'.
Proof.
  unfold refresh_tokens, emit, persist, mbind, M_bind.
  destruct (grant env (refresh_token s) now) as [s2|]; cbn; [|discriminate].
  intros Heq. by inversion Heq.
Qed.

Lemma ensure_authenticated_fresh s now w :
  session_file w = Some s -> expired s now = false ->
  ensure_authenticated env now w = (ok s, w).
Proof. intros Hs Hfresh. unfold ensure_authenticated. by rewrite Hs, Hfresh. Qed.

Lemma ensure_authenticated_refreshes now w :
  refreshes (snd (ensure_authenticated env now w)) <= refreshes w + 1.
Proof.
  unfold ensure_authenticated.
  destruct (session_file w) as [s|]; cbn; [|lia].
  destruct (expired s now); cbn; [|lia].
  rewrite refresh_tokens_refreshes. lia.
Qed.

(** [load_bf] loads the session once and then runs the command. *)
Lemma load_bf_loads_once {A} now (func : BeFake -> M A) w :
  load_bf env now func w
  = match ensure_authenticated env now w with
    | (ok s, w') => func (connect env s) w'
    | (raised e, w') => (raised e, w')
    end.
Proof. reflexivity. Qed.

End SessionFacts.

(** C9. One call of [ensure_authenticated] makes at most one refresh call.
    Two calls in succession make at most one in all, as long as the session
    is not invalidated in between, that is, the session a refresh at the
    first call buys has not expired at the second. *)
Theorem ensure_authenticated_refreshes_at_most_once
    (env : Env) (now now' : Z) (w : World) :
  refreshes (snd (ensure_authenticated env now w)) <= refreshes w + 1 /\
  ((forall s s', session_file w = Some s ->
      grant env (refresh_token s) now = Some s' -> expired s' now' = false) ->
   refreshes (snd ((ensure_authenticated env now;;
                    ensure_authenticated env now') w)) <= refreshes w + 1).
Proof.
  split; [apply ensure_authenticated_refreshes|]. intros Hvalid.
  unfold mbind, M_bind.
  destruct (ensure_authenticated env now w) as [[s1|e] w1] eqn:Hfirst; cbn.
  - revert Hfirst. unfold ensure_authenticated at 1.
    destruct (session_file w) as [s|] eqn:Hs; [|discriminate].
    destruct (expired s now) eqn:Hexp.
    + intros Hrefresh.
      pose proof (refresh_tokens_refreshes env s now w) as Hcount.
      rewrite Hrefresh in Hcount. cbn in Hcount.
      apply refresh_tokens_ok in Hrefresh as [Hgrant Hstored].
      rewrite (ensure_authenticated_fresh env s1) by eauto. cbn. lia.
    + intros Heq. inversion Heq; subst.
      apply ensure_authenticated_refreshes.
  - pose proof (ensure_authenticated_refreshes env now w) as Hle.
    by rewrite Hfirst in Hle.
Qed.

Lemma ensure_authenticated_witness :
  refreshes (snd (ensure_authenticated sample_env 200 logged_in_world))
  <= refreshes logged_in_world + 1 /\
  refreshes (snd ((ensure_authenticated sample_env 200;;
                   ensure_authenticated sample_env 201) logged_in_world))
  <= refreshes logged_in_world + 1.
Proof.
  destruct (ensure_authenticated_refreshes_at_most_once sample_env 200 201
              logged_in_world) as [Hone Htwo].
  split; [exact Hone|]. apply Htwo.
  intros s s' Hs Hgrant. cbn in Hgrant. inversion Hgrant. reflexivity.
Defined.

(** The [refresh] command on an expired session: the load refreshes, and
    the command refreshes again, as the comment in its body says. *)
Example refresh_command_refreshes_twice :
  refreshes (snd (ensure_authenticated sample_env 200 logged_in_world)) = 1 /\
  refreshes (snd (refresh sample_env 200 logged_in_world)) = 2.
Proof. split; reflexivity. Qed.

(** * More properties of the commands *)

(** ** [feed] on the kinds it has no branch for *)

Lemma for_each_nothing {A} (body : A -> M unit) (l : list A) w :
  (forall x w', body x w' = (ok tt, w')) -> for_each l body w = (ok tt, w).
Proof.
  intros Hbody. induction l as [|x l IH]; [done|].
  cbn [for_each]. by rewrite (bind_ok _ _ _ tt w) by apply Hbody.
Qed.

(** X1. [feed friends-of-friends] fetches the feed and saves nothing: the
    loop has a branch for [memories], [memories-v1] and [friends-v1] only,
    so the world after the command is the world after the getter, whatever
    the items and whatever the templates. *)
Theorem feed_friends_of_friends_saves_nothing
    (env : Env) (bf : BeFake) (save_location : string)
    (rl irl : option string) (items : list FeedItem) (w w0 : World) :
  get_fof_feed bf w = (ok items, w0) ->
  feed env bf "friends-of-friends" save_location rl irl w = (ok tt, w0).
Proof.
  intros Hfeed. unfold feed.
  destruct (feedgetter_lookup bf) as (_ & -> & _).
  rewrite (bind_ok _ _ _ _ w0 Hfeed).
  by apply for_each_nothing.
Qed.

Lemma feed_friends_of_friends_witness :
  feed sample_env
    (mkBeFake sample_session (mret [])
       (mret [ItPost sample_post; ItMemory (sample_memory "2024-01-01")])
       (mret []) (mret []) (mret []))
    "friends-of-friends" "{nonsense" None None empty_world
  = (ok tt, empty_world).
Proof.
  apply (feed_friends_of_friends_saves_nothing sample_env _ "{nonsense" None None
           [ItPost sample_post; ItMemory (sample_memory "2024-01-01")]).
  reflexivity.
Defined.

(** ** A download that fails in [_save_post_common] *)

(** X2. If the primary photo cannot be fetched, [_save_post_common] raises
    [MediaDownloadError] after the directory is made and [info.json] is
    written: the sidecar stays on disk without its photos, and neither the
    secondary photo nor the bts video is requested. *)
Theorem failed_primary_leaves_the_sidecar
    (env : Env) {A} `{Saveable A} (item : A) (loc : Path) (w wa : World) :
  mkdir loc w = (ok tt, wa) ->
  fs wa !! joinpath loc "info.json" ≠ Some Dir ->
  fetch env (url (primary_photo item)) = None ->
  _save_post_common env item loc w
  = (raised (MediaDownloadError (url (primary_photo item))),
     mkWorld (<[joinpath loc "info.json" := File (data_dict item)]> (fs wa))
       (events wa ++ [Download (url (primary_photo item)) (joinpath loc "primary")])
       (session_file wa)).
Proof.
  intros Hmk Hinfo Hfetch.
  change (joinpath loc "info.json") with ("info.json" :: loc) in *.
  change (joinpath loc "primary") with ("primary" :: loc).
  rewrite save_post_common_steps.
  rewrite (bind_ok _ _ _ tt wa Hmk).
  erewrite bind_ok
    by (apply write_file_ok; [by apply (mkdir_ok_is_dir _ w)|done]).
  apply bind_raised. unfold download, emit, mbind, M_bind. by rewrite Hfetch.
Qed.

Lemma failed_primary_witness :
  _save_post_common sample_env (broken_memory "2024-01-02") ["2024-01-02"] empty_world
  = (raised (MediaDownloadError (url (primary_photo (broken_memory "2024-01-02")))),
     mkWorld (<[joinpath ["2024-01-02"] "info.json"
                := File (data_dict (broken_memory "2024-01-02"))]>
                (fs (set_fs (<[["2024-01-02"] := Dir]> ∅) empty_world)))
       (events (set_fs (<[["2024-01-02"] := Dir]> ∅) empty_world)
        ++ [Download (url (primary_photo (broken_memory "2024-01-02")))
              (joinpath ["2024-01-02"] "primary")])
       (session_file (set_fs (<[["2024-01-02"] := Dir]> ∅) empty_world))).
Proof.
  apply (failed_primary_leaves_the_sidecar sample_env (broken_memory "2024-01-02")
           ["2024-01-02"] empty_world).
  - by apply mkdir_child.
  - cbn. by rewrite lookup_insert_ne, lookup_empty.
  - reflexivity.
Defined.

(** ** What saving the items of a feed keeps *)

Section Stable.
Context (P : World -> Prop).

Lemma stable_ret {A} (a : A) : stable P (mret a).
Proof. by intros w. Qed.

Lemma stable_raise {A} e : stable P (@raise A e).
Proof. by intros w. Qed.

Lemma stable_lift {A} (o : outcome A) : stable P (lift o).
Proof. by intros w. Qed.

Lemma stable_bind {A B} (m : M A) (f : A -> M B) :
  stable P m -> (forall a, stable P (f a)) -> stable P (m ≫= f).
Proof.
  intros Hm Hf w Hw. unfold mbind, M_bind. specialize (Hm w Hw).
  destruct (m w) as [[a|e] w1]; cbn in *; [|done].
  by apply Hf.
Qed.

Lemma stable_try_catch {A} (m : M A) (h : exn -> M A) :
  stable P m -> (forall e, stable P (h e)) -> stable P (try_catch m h).
Proof.
  intros Hm Hh w Hw. unfold try_catch. specialize (Hm w Hw).
  destruct (m w) as [[a|e] w1]; cbn in *; [done|].
  by apply Hh.
Qed.

Lemma stable_for_each {A} (l : list A) (body : A -> M unit) :
  (forall x, stable P (body x)) -> stable P (for_each l body).
Proof.
  intros Hbody. induction l as [|x l IH]; cbn [for_each].
  - apply stable_ret.
  - apply stable_bind; [apply Hbody | by intros _].
Qed.

(** Saving an item is made of [mkdir], writes of files and the two kinds
    of request: what these four keep, it keeps. *)
Hypothesis P_mkdir : forall p, stable P (mkdir p).
Hypothesis P_write_file : forall p data, stable P (write_file p data).
Hypothesis P_download : forall u dest, stable P (emit (Download u dest)).
Hypothesis P_date : forall id, stable P (emit (DateRequest id)).

Variable env : Env.

Lemma download_stable m dest : stable P (download env m dest).
Proof.
  unfold download. apply stable_bind; [apply P_download|intros _].
  destruct (fetch env (url m)); [apply P_write_file|apply stable_raise].
Qed.

Lemma save_post_common_stable {A} `{Saveable A} (item : A) loc :
  stable P (_save_post_common env item loc).
Proof.
  rewrite save_post_common_steps.
  apply stable_bind; [apply P_mkdir|intros _].
  apply stable_bind; [apply P_write_file|intros _].
  apply stable_bind; [apply download_stable|intros _].
  apply stable_bind; [apply download_stable|intros _].
  destruct (present (bts_video item)); [apply download_stable|apply stable_ret].
Qed.

Lemma save_realmoji_stable feed_id item post_date post rl irl emoji :
  stable P (_save_realmoji env feed_id item post_date post rl irl emoji).
Proof.
  unfold _save_realmoji.
  apply stable_bind; [apply stable_lift|intros s].
  apply stable_bind.
  - unfold second_pass. destruct (contains "{date}" s); [|apply stable_ret].
    apply stable_bind; [|intros d; apply stable_lift].
    unfold date. apply stable_bind; [apply P_date|intros _; apply stable_ret].
  - intros path. apply stable_bind; [apply P_mkdir|intros _].
    apply download_stable.
Qed.

Lemma save_post_stable feed_id save_location rl irl item post :
  stable P (save_post env feed_id save_location rl irl item post).
Proof.
  unfold save_post.
  apply stable_bind; [apply stable_lift|intros s].
  apply stable_bind; [apply save_post_common_stable|intros _].
  apply stable_for_each. intros emoji. apply save_realmoji_stable.
Qed.

Lemma save_item_stable feed_id save_location rl irl item :
  stable P (save_item env feed_id save_location rl irl item).
Proof.
  unfold save_item.
  destruct (String.eqb feed_id "memories").
  { apply stable_bind; [destruct item; by intros w|intros m].
    apply stable_bind; [apply stable_lift|intros s].
    apply save_post_common_stable. }
  destruct (String.eqb feed_id "memories-v1").
  { apply stable_bind; [destruct item; by intros w|intros m].
    apply stable_bind; [apply stable_lift|intros s].
    apply save_post_common_stable. }
  destruct (String.eqb feed_id "friends-v1"); [|apply stable_ret].
  apply stable_bind; [destruct item; by intros w|intros m].
  apply stable_for_each. intros post. apply save_post_stable.
Qed.

End Stable.

Lemma kind_at_insert (q p : Path) (n : Node) (k : kind) (w : World) :
  kind_at q w = Some k ->
  (p = q -> kind_of n = k) ->
  kind_at q (set_fs (<[p := n]> (fs w)) w) = Some k.
Proof.
  unfold kind_at. cbn. intros Hq Hsame.
  destruct (decide (p = q)) as [->|Hne].
  - rewrite lookup_insert_eq. cbn. by rewrite Hsame.
  - by rewrite lookup_insert_ne.
Qed.

Lemma os_mkdir_keeps_kind q k p :
  stable (fun w => kind_at q w = Some k) (os_mkdir p).
Proof.
  intros w Hq. unfold os_mkdir.
  destruct (lookup_node (fs w) p) as [n|] eqn:Hp; [done|].
  destruct (lookup_node (fs w) (parent p)) as [[|c]|]; try done.
  cbn. apply kind_at_insert; [done|]. intros ->.
  destruct q as [|name up]; [done|]. cbn in Hp.
  unfold kind_at in Hq. by rewrite Hp in Hq.
Qed.

Lemma unless_is_dir_stable (P : World -> Prop) p e : stable P (unless_is_dir p e).
Proof. intros w Hw. by rewrite unless_is_dir_world. Qed.

Lemma mkdir_keeps_kind q k p :
  stable (fun w => kind_at q w = Some k) (mkdir p).
Proof.
  induction p as [|name up IH].
  - cbn [mkdir]. apply stable_try_catch; [apply os_mkdir_keeps_kind|].
    intros e. destruct e; (apply unless_is_dir_stable || apply stable_raise).
  - rewrite mkdir_cons. apply stable_try_catch; [apply os_mkdir_keeps_kind|].
    intros e. destruct e; try apply unless_is_dir_stable.
    apply stable_bind; [apply IH|intros _].
    unfold mkdir_leaf. apply stable_try_catch; [apply os_mkdir_keeps_kind|].
    intros e. destruct e; (apply unless_is_dir_stable || apply stable_raise).
Qed.

Lemma write_file_keeps_kind q k p data :
  stable (fun w => kind_at q w = Some k) (write_file p data).
Proof.
  intros w Hq. unfold write_file.
  destruct (lookup_node (fs w) p) as [[|c]|] eqn:Hp; [done| |];
    destruct (lookup_node (fs w) (parent p)) as [[|c']|]; try done;
    cbn; apply kind_at_insert; try done; intros ->;
    (destruct q as [|name up]; [done|]); cbn in Hp;
    unfold kind_at in Hq; rewrite Hp in Hq; by simplify_eq/=.
Qed.

(** X3. Saving the items of a feed never removes an entry of the file
    system and never turns a directory into a file or a file into a
    directory: a path that held a directory holds one afterwards, a path
    that held a file holds a file (its content may have been written
    again), whatever the feed kind, the templates, the items and the
    outcome. *)
Theorem saving_items_keeps_what_is_on_disk
    (env : Env) (feed_id save_location : string) (rl irl : option string)
    (items : list FeedItem) (q : Path) (k : kind) (w : World) :
  kind_at q w = Some k ->
  kind_at q (snd (for_each items (save_item env feed_id save_location rl irl) w))
  = Some k.
Proof.
  assert (Hstable : stable (fun w' => kind_at q w' = Some k)
            (for_each items (save_item env feed_id save_location rl irl))).
  { apply stable_for_each. intros item. apply save_item_stable.
    - intros p. apply mkdir_keeps_kind.
    - intros p data. apply write_file_keeps_kind.
    - by intros u dest w'.
    - by intros id w'. }
  apply Hstable.
Qed.

Lemma saving_items_keeps_witness :
  kind_at ["mem"]
    (snd (for_each [ItMemory (sample_memory "2024-01-01")]
            (save_item sample_env "memories" "/mem/{date}" None None)
            (mkWorld (<[["mem"] := File "not a directory"]> ∅) [] None)))
  = Some KFile.
Proof.
  apply (saving_items_keeps_what_is_on_disk sample_env "memories" "/mem/{date}"
           None None [ItMemory (sample_memory "2024-01-01")] ["mem"] KFile).
  reflexivity.
Defined.

(** X4. Saving the items of a feed never touches the session: the session
    file is as before and no refresh call is made, whatever the outcome. *)
Theorem saving_items_leaves_the_session_alone
    (env : Env) (feed_id save_location : string) (rl irl : option string)
    (items : list FeedItem) (w : World) :
  session_file (snd (for_each items (save_item env feed_id save_location rl irl) w))
  = session_file w /\
  refreshes (snd (for_each items (save_item env feed_id save_location rl irl) w))
  = refreshes w.
Proof.
  assert (Hstable : stable
            (fun w' => session_file w' = session_file w /\ refreshes w' = refreshes w)
            (for_each items (save_item env feed_id save_location rl irl))).
  { apply stable_for_each. intros item. apply save_item_stable.
    - intros p w' [Hs Hr]. destruct (mkdir_frame p w') as [[Hev Hse] _].
      unfold refreshes in *. by rewrite Hev, Hse.
    - intros p data w' [Hs Hr].
      by destruct (write_file_world p data w') as [-> | ->].
    - intros u dest w' [Hs Hr]. unfold refreshes in *. cbn.
      rewrite count_events_app. cbn. split; [done|lia].
    - intros id w' [Hs Hr]. unfold refreshes in *. cbn.
      rewrite count_events_app. cbn. split; [done|lia]. }
  by apply Hstable.
Qed.

(** ** Date requests of a post *)

Lemma save_post_common_preserves_date_requests
    (env : Env) {A} `{Saveable A} (item : A) (loc : Path) :
  preserves date_requests (_save_post_common env item loc).
Proof.
  rewrite save_post_common_steps.
  apply preserves_bind; [apply mkdir_preserves_date_requests|intros _].
  apply preserves_bind;
    [apply (write_file_preserves_events (count_events is_date_request))|intros _].
  apply preserves_bind; [apply download_preserves_date_requests|intros _].
  apply preserves_bind; [apply download_preserves_date_requests|intros _].
  destruct (present (bts_video item));
    [apply download_preserves_date_requests|apply preserves_ret].
Qed.

Lemma save_realmoji_date_bound
    (env : Env) feed_id item post_date post rl irl emoji w :
  date_requests w
  <= date_requests (snd (_save_realmoji env feed_id item post_date post rl irl emoji w))
  <= date_requests w + 1.
Proof.
  destruct (first_pass env feed_id item post_date post
              (pick_location rl irl emoji) emoji) as [s|e] eqn:Hfirst.
  - rewrite (save_realmoji_after_first_pass env _ _ _ _ _ _ _ s) by done.
    destruct (contains "{date}" s) eqn:Hin.
    + set (w1 := after_event (DateRequest (emoji_id emoji)) w).
      assert (Hw1 : date_requests w1 = date_requests w + 1)
        by (unfold w1; by rewrite date_requests_after_event).
      destruct (format (py_render env) s
                  (list_to_map [("date", dt_format (emoji_date emoji) date_format)]))
        as [path|e] eqn:Hfmt.
      * rewrite (bind_ok _ _ _ path w1)
          by (rewrite second_pass_requests by done; by rewrite Hfmt).
        rewrite save_realmoji_tail_preserves. lia.
      * rewrite (bind_raised _ _ _ e w1)
          by (rewrite second_pass_requests by done; by rewrite Hfmt).
        cbn [snd]. lia.
    + rewrite (bind_ok _ _ _ s w) by by apply second_pass_skips.
      rewrite save_realmoji_tail_preserves. lia.
  - unfold _save_realmoji, mbind, M_bind, lift. rewrite Hfirst. cbn. lia.
Qed.

Lemma for_each_adds_at_most {A} (f : World -> nat) (body : A -> M unit) l :
  (forall x w, f w <= f (snd (body x w)) <= f w + 1) ->
  forall w, f w <= f (snd (for_each l body w)) <= f w + length l.
Proof.
  intros Hbody. induction l as [|x l IH]; intros w; cbn [for_each length].
  - cbn. lia.
  - unfold mbind, M_bind. specialize (Hbody x w).
    destruct (body x w) as [[[]|e] w1]; cbn in *; [|lia].
    specialize (IH w1). lia.
Qed.

(** X5. Saving a post of the friends-v1 feed asks for at most one date per
    realmoji of the post, whatever the templates and the outcome. *)
Theorem post_asks_at_most_one_date_per_realmoji
    (env : Env) (feed_id save_location : string) (rl irl : option string)
    (item : Moment) (post : Post) (w : World) :
  date_requests w
  <= date_requests (snd (save_post env feed_id save_location rl irl item post w))
  <= date_requests w + length (realmojis post).
Proof.
  unfold save_post.
  destruct (post_location env feed_id save_location item post
              (dt_format (creation_date post) date_format)) as [s|e].
  - rewrite lift_ok_bind.
    pose proof (save_post_common_preserves_date_requests env post
                  (joinpath (BASE_DIR env) s) w) as Hcommon.
    destruct (_save_post_common env post (joinpath (BASE_DIR env) s) w)
      as [[[]|e] w1] eqn:Hrun; cbn [snd] in Hcommon.
    + rewrite (bind_ok _ _ _ tt w1 Hrun). rewrite <- Hcommon.
      unfold _save_realmojis.
      apply for_each_adds_at_most. intros emoji w'. apply save_realmoji_date_bound.
    + rewrite (bind_raised _ _ _ e w1 Hrun). cbn [snd]. lia.
  - rewrite (bind_raised _ _ _ e w) by done. cbn [snd]. lia.
Qed.

(** ** The second [format], in full *)

Lemma contains_date_text s rest :
  brace_free s = true ->
  contains "{date}" (String.append s rest) = contains "{date}" rest.
Proof.
  induction s as [|c s IH]; [done|]. cbn [brace_free].
  intros [[Hl _]%andb_prop Hs]%andb_prop. apply negb_true_iff in Hl.
  change (String.append (String c s) rest) with (String c (String.append s rest)).
  assert (Hc : Ascii.eqb "{" c = false) by (rewrite Ascii.eqb_sym; exact Hl).
  cbn [contains is_prefix]. rewrite IH by done. by rewrite Hc.
Qed.

Lemma contains_date_segments segs :
  forallb segment_ok segs = true ->
  contains "{date}" (unparse segs) = existsb is_hole segs.
Proof.
  induction segs as [|[s|] segs IH]; cbn [forallb segment_ok unparse existsb is_hole].
  - done.
  - intros [Hs Hsegs]%andb_prop. rewrite contains_date_text by done. by apply IH.
  - intros _. reflexivity.
Qed.

Lemma fill_without_hole value segs :
  existsb is_hole segs = false -> fill value segs = unparse segs.
Proof.
  induction segs as [|[s|] segs IH]; cbn [existsb is_hole fill unparse orb].
  - done.
  - intros Hsegs. by rewrite IH.
  - discriminate.
Qed.

(** X6. On a location made of text without braces and [{date}]
    placeholders, the second [format] gives the location with the date of
    the realmoji in the place of every placeholder, and asks for the date
    once if there is a placeholder and not at all if there is none. *)
Theorem second_pass_fills_and_asks_only_if_needed
    (env : Env) (emoji : Realmoji) (segs : list segment) (w : World) :
  forallb segment_ok segs = true ->
  second_pass env emoji (unparse segs) w
  = (ok (fill (dt_format (emoji_date emoji) date_format) segs),
     if existsb is_hole segs
     then after_event (DateRequest (emoji_id emoji)) w
     else w).
Proof.
  intros Hsegs. pose proof (contains_date_segments segs Hsegs) as Hin.
  destruct (existsb is_hole segs) eqn:Hhole.
  - rewrite second_pass_requests by done. by rewrite format_fills_date.
  - rewrite second_pass_skips by done. by rewrite fill_without_hole.
Qed.

Lemma second_pass_witness :
  second_pass sample_env (sample_realmoji "instant" "alice")
    (unparse [Text "bob/"; DateHole; Text "_"; DateHole; Text ".webp"]) empty_world
  = (ok (fill (dt_format (emoji_date (sample_realmoji "instant" "alice")) date_format)
           [Text "bob/"; DateHole; Text "_"; DateHole; Text ".webp"]),
     if existsb is_hole [Text "bob/"; DateHole; Text "_"; DateHole; Text ".webp"]
     then after_event (DateRequest (emoji_id (sample_realmoji "instant" "alice")))
            empty_world
     else empty_world).
Proof.
  apply (second_pass_fills_and_asks_only_if_needed sample_env
           (sample_realmoji "instant" "alice")
           [Text "bob/"; DateHole; Text "_"; DateHole; Text ".webp"] empty_world).
  reflexivity.
Defined.

(** ** Where the save location points *)





Lemma append_empty (s : string) : String.append s "" = s.
Proof.
  induction s as [|c s IH]; [done|].
  change (String.append (String c s) "") with (String c (String.append s "")).
  by rewrite IH.
Qed.

Lemma format_brace_free py_render template kwargs :
  brace_free template = true -> format py_render template kwargs = ok template.
Proof.
  intros Hfree. unfold format, pieces.
  pose proof (scan_text template "" Hfree) as Hscan.
  rewrite append_empty in Hscan. rewrite Hscan. cbn [scan at_end].
  rewrite build_text. cbn [build].
  by rewrite append_empty, string_of_list_ascii_of_string.
Qed.

(** X8. A save location without braces is used as it is: every item of the
    [memories] feed, whatever its day, is saved into the one directory the
    location names. *)
Theorem save_location_without_placeholder_is_one_directory
    (env : Env) (save_location : string) (rl irl : option string)
    (m : Memory) :
  brace_free save_location = true ->
  save_item env "memories" save_location rl irl (ItMemory m)
  = _save_post_common env m (joinpath (BASE_DIR env) save_location).
Proof.
  intros Hfree. rewrite save_item_memories.
  rewrite format_brace_free by done. reflexivity.
Qed.

Lemma save_location_without_placeholder_witness :
  save_item sample_env "memories" "memories/all" None None
    (ItMemory (sample_memory "2024-01-02"))
  = _save_post_common sample_env (sample_memory "2024-01-02")
      (joinpath (BASE_DIR sample_env) "memories/all").
Proof.
  apply (save_location_without_placeholder_is_one_directory sample_env
           "memories/all" None None (sample_memory "2024-01-02")).
  reflexivity.
Defined.

(** ** Saving into a directory that holds another item *)

Lemma save_post_common_over
    (env : Env) {A} `{Saveable A} (item : A) (loc : Path) (w : World) :
  lookup_node (fs w) loc = Some Dir ->
  fs w !! ("info.json" :: loc) ≠ Some Dir ->
  fs w !! ("primary" :: loc) ≠ Some Dir ->
  fs w !! ("secondary" :: loc) ≠ Some Dir ->
  (present (bts_video item) = true -> fs w !! ("bts" :: loc) ≠ Some Dir) ->
  fetchable env item ->
  exists w1,
    _save_post_common env item loc w = (ok tt, w1) /\
    (present (bts_video item) = false ->
     fs w1 !! ("bts" :: loc) = fs w !! ("bts" :: loc)).
Proof.
  intros Hdir Hinfo Hprim Hsec Hbts ([b1 Hb1] & [b2 Hb2] & Hfetch).
  rewrite save_post_common_steps.
  rewrite (bind_ok _ _ _ tt w) by by apply mkdir_existing.
  erewrite bind_ok by by apply write_file_ok.
  erewrite bind_ok.
  2:{ apply (download_fresh _ _ _ _ b1); [done| |]; cbn [fs set_fs].
      - by rewrite lookup_node_insert_child.
      - by rewrite lookup_insert_ne. }
  erewrite bind_ok.
  2:{ apply (download_fresh _ _ _ _ b2); [done| |]; cbn [fs set_fs].
      - by rewrite !lookup_node_insert_child.
      - by rewrite !lookup_insert_ne. }
  destruct (present (bts_video item)).
  - destruct Hfetch as [b3 Hb3]; [done|].
    erewrite (download_fresh _ _ _ _ b3); [|done| |]; cbn [fs set_fs].
    + eexists. split; [done|]. discriminate.
    + by rewrite !lookup_node_insert_child.
    + rewrite !lookup_insert_ne by done. by apply Hbts.
  - eexists. split; [reflexivity|]. intros _. cbn [fs set_fs].
    by rewrite !lookup_insert_ne.
Qed.

(** X9. Saving an item into a directory into which another item was saved
    succeeds when its assets can be fetched, and replaces [info.json],
    [primary] and [secondary] by its own; if it has no bts video, the
    [bts] file of the earlier item stays where it is. *)
Theorem saving_over_another_item_replaces_it
    (env : Env) {A} `{Saveable A} (earlier item : A) (loc : Path) (w : World) :
  saved env earlier loc (fs w) ->
  fetchable env item ->
  (present (bts_video item) = true -> fs w !! joinpath loc "bts" ≠ Some Dir) ->
  exists w1,
    _save_post_common env item loc w = (ok tt, w1) /\
    saved env item loc (fs w1) /\
    (present (bts_video item) = false ->
     fs w1 !! joinpath loc "bts" = fs w !! joinpath loc "bts").
Proof.
  intros (Hdir & Hinfo & (b1 & _ & Hprim) & (b2 & _ & Hsec) & _) Hfetch Hbts.
  change (joinpath loc "bts") with ("bts" :: loc) in *.
  destruct (save_post_common_over env item loc w) as (w1 & Hrun & Hstale);
    try done; try congruence.
  exists w1. split; [done|]. split; [|done].
  by apply (save_post_common_saved env item loc w).
Qed.

Lemma saving_over_another_item_witness :
  exists w1,
    _save_post_common sample_env (sample_memory "2024-01-02") ["all"]
      (snd (_save_post_common sample_env (memory_with_bts "2024-01-01") ["all"]
              empty_world)) = (ok tt, w1) /\
    saved sample_env (sample_memory "2024-01-02") ["all"] (fs w1) /\
    (present (bts_video (sample_memory "2024-01-02")) = false ->
     fs w1 !! joinpath ["all"] "bts"
     = fs (snd (_save_post_common sample_env (memory_with_bts "2024-01-01") ["all"]
                  empty_world)) !! joinpath ["all"] "bts").
Proof.
  apply (saving_over_another_item_replaces_it sample_env
           (memory_with_bts "2024-01-01") (sample_memory "2024-01-02") ["all"]).
  - apply (save_post_common_saved sample_env _ _ empty_world).
    vm_compute. reflexivity.
  - split; [by eexists|]. split; [by eexists|]. cbn. discriminate.
  - cbn. discriminate.
Defined.

(** The stale bts file of the sample. *)
Example stale_bts_file :
  fs (snd (_save_post_common sample_env (sample_memory "2024-01-02") ["all"]
             (snd (_save_post_common sample_env (memory_with_bts "2024-01-01")
                     ["all"] empty_world))))
    !! ["bts"; "all"]
  = Some (File "bytes of https://cdn/2024-01-01/bts.mp4").
Proof. vm_compute. reflexivity. Qed.

(** ** Realmojis without a location *)

(** X10. When a realmoji of a post gets no template (the option for its
    type was not given and there is nothing to fall back on), saving the
    post raises [AttributeError] at the first realmoji, after the post
    itself has been saved: its directory, sidecar and photos stay. *)
Theorem realmoji_without_location_fails_after_the_post
    (env : Env) (feed_id save_location : string) (rl irl : option string)
    (item : Moment) (post : Post) (emoji : Realmoji) (others : list Realmoji)
    (s : string) (w w1 : World) :
  post_location env feed_id save_location item post
    (dt_format (creation_date post) date_format) = ok s ->
  _save_post_common env post (joinpath (BASE_DIR env) s) w = (ok tt, w1) ->
  realmojis post = emoji :: others ->
  pick_location rl irl emoji = None ->
  save_post env feed_id save_location rl irl item post w
  = (raised (AttributeError "format"), w1).
Proof.
  intros Hloc Hrun Hemojis Hpick. unfold save_post. rewrite Hloc, lift_ok_bind.
  rewrite (bind_ok _ _ _ tt w1 Hrun).
  unfold _save_realmojis. rewrite Hemojis. cbn [for_each].
  apply bind_raised. unfold _save_realmoji, first_pass. rewrite Hpick.
  reflexivity.
Qed.

Lemma realmoji_without_location_witness :
  save_post sample_env "friends-v1" "/posts/{post_id}" None None
    sample_moment sample_post empty_world
  = (raised (AttributeError "format"),
     snd (_save_post_common sample_env sample_post ["post-1"; "posts"] empty_world)).
Proof.
  apply (realmoji_without_location_fails_after_the_post sample_env "friends-v1"
           "/posts/{post_id}" None None sample_moment sample_post
           (sample_realmoji "instant" "alice") [] "/posts/post-1" empty_world).
  - reflexivity.
  - vm_compute. reflexivity.
  - reflexivity.
  - reflexivity.
Defined.

(** ** The [refresh] command *)

Lemma refresh_tokens_granted (env : Env) s now s' w :
  grant env (refresh_token s) now = Some s' ->
  exists w1, refresh_tokens env s now w = (ok s', w1).
Proof.
  intros Hgrant. unfold refresh_tokens, emit, persist, mbind, M_bind.
  rewrite Hgrant. by eexists.
Qed.

Lemma refresh_and_echo_refreshes (env : Env) s now w :
  refreshes (snd ((s' ← refresh_tokens env s now; emit (Echo (access_token s'))) w))
  = refreshes w + 1.
Proof.
  unfold mbind at 1, M_bind at 1.
  pose proof (refresh_tokens_refreshes env s now w) as Hcount.
  destruct (refresh_tokens env s now w) as [[s'|e] w1]; cbn [snd] in *; [|done].
  unfold emit, refreshes in *. cbn. rewrite count_events_app. cbn. lia.
Qed.

(** X11. The [refresh] command makes a refresh call of its own after the
    load: with a stored session that has not expired it makes exactly one
    refresh call, and with one that has expired and can be refreshed it
    makes exactly two, the double refresh of the comment in its body. *)
Theorem refresh_command_refreshes_after_the_load
    (env : Env) (now : Z) (s : Session) (w : World) :
  session_file w = Some s ->
  (expired s now = false ->
   refreshes (snd (refresh env now w)) = refreshes w + 1) /\
  (expired s now = true ->
   is_Some (grant env (refresh_token s) now) ->
   refreshes (snd (refresh env now w)) = refreshes w + 2).
Proof.
  intros Hs. split.
  - intros Hfresh. unfold refresh. rewrite load_bf_loads_once.
    rewrite (ensure_authenticated_fresh env s) by done.
    apply refresh_and_echo_refreshes.
  - intros Hexpired [s' Hgrant]. unfold refresh. rewrite load_bf_loads_once.
    unfold ensure_authenticated. rewrite Hs, Hexpired.
    pose proof (refresh_tokens_refreshes env s now w) as Hcount.
    destruct (refresh_tokens_granted env s now s' w Hgrant) as [w1 Hw1].
    rewrite Hw1 in Hcount |- *. cbn [snd] in Hcount.
    rewrite refresh_and_echo_refreshes. lia.
Qed.

Lemma refresh_command_witness :
  refreshes (snd (refresh sample_env 50 logged_in_world))
  = refreshes logged_in_world + 1 /\
  refreshes (snd (refresh sample_env 200 logged_in_world))
  = refreshes logged_in_world + 2.
Proof.
  split.
  - apply (refresh_command_refreshes_after_the_load sample_env 50 sample_session
             logged_in_world); reflexivity.
  - apply (refresh_command_refreshes_after_the_load sample_env 200 sample_session
             logged_in_world); [reflexivity|reflexivity|by eexists].
Defined.

(** ** [get_post] *)

(** X12. [get_post] calls the three feed getters, whatever [feed_id] is,
    and then calls what it found in the dictionary, which is a feed and not
    a getter: when the three getters return, the command ends with
    [TypeError], in the world the third getter left, and prints nothing. *)
Theorem get_post_calls_a_feed
    (view : PostView) (bf : BeFake) (feed_id post_id : string)
    (friends fof discovery : list FeedItem) (w w1 w2 w3 : World) :
  get_friendsv1_feed bf w = (ok friends, w1) ->
  get_fof_feed bf w1 = (ok fof, w2) ->
  get_discovery_feed bf w2 = (ok discovery, w3) ->
  In feed_id get_post_choices ->
  get_post view bf feed_id post_id w
  = (inl (TypeError "'list' object is not callable"), w3).
Proof.
  intros Hfriends Hfof Hdiscovery Hin. unfold get_post, get_post_feeds.
  rewrite (bind_ok _ _ _ _ w1 Hfriends), (bind_ok _ _ _ _ w2 Hfof),
    (bind_ok _ _ _ _ w3 Hdiscovery).
  cbn in Hin. destruct Hin as [<-|[<-|[<-|[]]]]; reflexivity.
Qed.

Lemma get_post_witness :
  get_post sample_view
    (mkBeFake sample_session (mret [ItMoment sample_moment]) (mret [])
       (mret []) (mret []) (mret [ItPost sample_post]))
    "discovery" "post-1" empty_world
  = (inl (TypeError "'list' object is not callable"), empty_world).
Proof.
  apply (get_post_calls_a_feed sample_view _ "discovery" "post-1"
           [ItMoment sample_moment] [] [ItPost sample_post]
           empty_world empty_world empty_world empty_world).
  - reflexivity.
  - reflexivity.
  - reflexivity.
  - cbn. auto.
Defined.

(** ** [parse_friends] *)

Lemma split_slash_app cur s t :
  split_slash cur (String.append s (String "/" t))
  = split_slash cur s ++ split_slash "" t.
Proof.
  revert cur. induction s as [|c s IH]; intros cur; [done|].
  change (String.append (String c s) (String "/" t))
    with (String c (String.append s (String "/" t))).
  cbn [split_slash]. destruct (Ascii.eqb c "/"); by rewrite IH.
Qed.

Lemma joinpath_info_json (base : Path) (s : string) :
  s <> "" ->
  joinpath base (s +:+ "/info.json") = "info.json" :: joinpath base s.
Proof.
  intros Hs. unfold joinpath, parts.
  change (s +:+ "/info.json") with (String.append s (String "/" "info.json")).
  assert (Habs : is_absolute (String.append s (String "/" "info.json"))
                 = is_absolute s) by (by destruct s).
  rewrite Habs, split_slash_app, List.filter_app.
  change (List.filter keep_part (split_slash "" "info.json")) with ["info.json"].
  rewrite rev_app_distr. change (rev ["info.json"]) with ["info.json"].
  by destruct (is_absolute s).
Qed.

(** The error for a missing path no parent of which is a regular file. *)
Lemma missing_error_not_found (f : gmap Path Node) (p : Path) :
  (forall q c, q `suffix_of` p -> lookup_node f q ≠ Some (File c)) ->
  missing_error f p = FileNotFoundError.
Proof.
  induction p as [|name up IH]; intros Hfree; [done|]. cbn [missing_error].
  destruct (lookup_node f up) as [[|c]|] eqn:Hup.
  - done.
  - destruct (Hfree up c); [by apply suffix_cons_r|done].
  - apply IH. intros q c Hq. apply Hfree. by apply suffix_cons_r.
Qed.

(** X13. [parse_friends] makes no directory: when the directory the
    location of the first friend names does not exist, under parents none
    of which is a regular file, the command raises [FileNotFoundError] at
    its [open], with nothing written and no later friend visited.  The
    location is [/friends/{user}] when the option is not given.  The
    directory is named without [..]. *)
Theorem parse_friends_needs_the_directory
    (env : Env) (bf : FriendsClient) (save_location : option string)
    (friend : Friend) (others : list Friend) (s : string) (w w0 : World) :
  get_friends bf w = (ok (friend :: others), w0) ->
  format (py_render env) (default "/friends/{user}" save_location)
    (list_to_map [("user", friend_username friend)]) = ok s ->
  s <> "" ->
  plain_path (joinpath (BASE_DIR env) s) = true ->
  (forall q c, q `suffix_of` joinpath (BASE_DIR env) s ->
     lookup_node (fs w0) q ≠ Some (File c)) ->
  lookup_node (fs w0) (joinpath (BASE_DIR env) s) = None ->
  fs w0 !! joinpath (BASE_DIR env) (s +:+ "/info.json") = None ->
  parse_friends env bf save_location w = (raised FileNotFoundError, w0).
Proof.
  intros Hfriends Hformat Hs _ Hfree Hdir Hinfo. unfold parse_friends.
  rewrite (bind_ok _ _ _ _ w0 Hfriends). cbn [for_each].
  apply bind_raised. unfold parse_friend.
  change (match save_location with
          | Some s0 => s0
          | None => "/friends/{user}"
          end) with (default "/friends/{user}" save_location).
  rewrite Hformat, lift_ok_bind. apply bind_raised.
  unfold write_file. rewrite joinpath_info_json in Hinfo |- * by done.
  rewrite lookup_node_cons, Hinfo. cbn [parent tail]. rewrite Hdir.
  by rewrite missing_error_not_found.
Qed.

Lemma parse_friends_witness :
  parse_friends sample_env sample_friends_client None empty_world
  = (raised FileNotFoundError, empty_world).
Proof.
  apply (parse_friends_needs_the_directory sample_env sample_friends_client None
           sample_friend [] "/friends/carol" empty_world empty_world).
  - reflexivity.
  - reflexivity.
  - discriminate.
  - reflexivity.
  - intros q c _. destruct q as [|x q]; [done|].
    rewrite lookup_node_cons. unfold empty_world. cbn [fs].
    by rewrite lookup_empty.
  - reflexivity.
  - reflexivity.
Defined.

(** Under a regular file the same [open] fails with [NotADirectoryError]. *)
Example parse_friends_under_a_file :
  parse_friends sample_env sample_friends_client None
    (mkWorld (<[["friends"] := File "not a directory"]> ∅) [] None)
  = (raised NotADirectoryError,
     mkWorld (<[["friends"] := File "not a directory"]> ∅) [] None).
Proof. vm_compute. reflexivity. Qed.

(** ** When saving succeeds *)

(** [mkdir] returns on every disk on which neither the directory nor one
    of its parents is a file. *)
Lemma mkdir_succeeds (p : Path) : forall w,
  (forall q c, q `suffix_of` p -> lookup_node (fs w) q ≠ Some (File c)) ->
  exists wa, mkdir p w = (ok tt, wa).
Proof.
  induction p as [|name up IH]; intros w Hfree.
  - exists w. by apply mkdir_existing.
  - destruct (lookup_node (fs w) (name :: up)) as [[|c]|] eqn:Hp.
    + exists w. by apply mkdir_existing.
    + by destruct (Hfree (name :: up) c).
    + rewrite lookup_node_cons in Hp.
      destruct (lookup_node (fs w) up) as [[|c]|] eqn:Hup.
      * eexists. by apply mkdir_child.
      * destruct (Hfree up c); [by apply suffix_cons_r|done].
      * destruct (IH w) as [wa Hwa].
        { intros q c Hq. apply Hfree. by apply suffix_cons_r. }
        rewrite mkdir_cons. unfold try_catch at 1, os_mkdir at 1.
        rewrite lookup_node_cons, Hp. cbn [parent tail]. rewrite Hup.
        rewrite missing_error_not_found
          by (intros q c Hq; apply Hfree; by apply suffix_cons_r).
        rewrite (bind_ok _ _ _ tt wa Hwa).
        destruct (mkdir_frame up w) as [_ Hframe]. rewrite Hwa in Hframe.
        cbn [snd] in Hframe.
        unfold mkdir_leaf, try_catch, os_mkdir.
        rewrite lookup_node_cons, Hframe, Hp by (cbn; lia).
        cbn [parent tail]. rewrite (mkdir_ok_is_dir _ _ _ Hwa). by eexists.
Qed.

(** X14. [_save_post_common] succeeds for a directory named without [..]
    on every disk on which neither the directory nor one of its parents is
    a file and nothing directly under the directory is itself a directory,
    when the photos (and the bts video if it exists) can be fetched;
    afterwards the directory exists and holds the sidecar and the files
    fetched. *)
Theorem saving_succeeds_where_the_directory_can_be_made
    (env : Env) {A} `{Saveable A} (item : A) (loc : Path) (w : World) :
  plain_path loc = true ->
  (forall q c, q `suffix_of` loc -> lookup_node (fs w) q ≠ Some (File c)) ->
  (forall name, fs w !! (name :: loc) ≠ Some Dir) ->
  fetchable env item ->
  exists w1, _save_post_common env item loc w = (ok tt, w1) /\
             saved env item loc (fs w1).
Proof.
  intros _ Hfree Hunder Hfetch.
  destruct (mkdir_succeeds loc w Hfree) as [wa Hmk].
  destruct (mkdir_frame loc w) as [_ Hframe]. rewrite Hmk in Hframe.
  cbn [snd] in Hframe.
  destruct (save_post_common_ok env item loc w wa Hmk) as (w1 & Hrun & Hsaved & _);
    [|done|by exists w1].
  intros name. rewrite Hframe by (cbn; lia). apply Hunder.
Qed.

Lemma saving_succeeds_witness :
  exists w1,
    _save_post_common sample_env (memory_with_bts "2024-01-01")
      ["2024-01-01"; "mem"; "home"]
      (mkWorld (<[["home"] := Dir]> ∅) [] None) = (ok tt, w1) /\
    saved sample_env (memory_with_bts "2024-01-01")
      ["2024-01-01"; "mem"; "home"] (fs w1).
Proof.
  apply (saving_succeeds_where_the_directory_can_be_made sample_env
           (memory_with_bts "2024-01-01") ["2024-01-01"; "mem"; "home"]).
  - reflexivity.
  - intros q c [k Hk]. cbn [fs].
    destruct q as [|x q]; [done|]. cbn [lookup_node].
    destruct (decide (x :: q = ["home"])) as [->|Hne].
    + by rewrite lookup_insert_eq.
    + by rewrite lookup_insert_ne, lookup_empty.
  - intros name. cbn [fs]. by rewrite lookup_insert_ne, lookup_empty.
  - split; [by eexists|]. split; by eexists.
Defined.

(** ** Saving a realmoji, from the template to the file *)

(** A realmoji whose location resolves to a path that can be written is
    saved there. *)
Lemma save_realmoji_ok
    (env : Env) (feed_id : string) (item : Moment) (post_date : string)
    (post : Post) (rl irl : option string) (emoji : Realmoji)
    (segs : list segment) (data : string) (w : World) :
  first_pass env feed_id item post_date post (pick_location rl irl emoji) emoji
  = ok (unparse segs) ->
  forallb segment_ok segs = true ->
  plain_path (joinpath (BASE_DIR env)
                (fill (dt_format (emoji_date emoji) date_format) segs)) = true ->
  (forall q c,
     q `suffix_of` parent (joinpath (BASE_DIR env)
                             (fill (dt_format (emoji_date emoji) date_format) segs)) ->
     lookup_node (fs w) q ≠ Some (File c)) ->
  lookup_node (fs w)
    (joinpath (BASE_DIR env) (fill (dt_format (emoji_date emoji) date_format) segs))
  ≠ Some Dir ->
  fetch env (url (emoji_photo emoji)) = Some data ->
  exists w1,
    _save_realmoji env feed_id item post_date post rl irl emoji w = (ok tt, w1) /\
    fs w1 !! joinpath (BASE_DIR env)
               (fill (dt_format (emoji_date emoji) date_format) segs)
    = Some (File data) /\
    In (Download (url (emoji_photo emoji))
          (joinpath (BASE_DIR env)
             (fill (dt_format (emoji_date emoji) date_format) segs)))
       (events w1) /\
    date_requests w1
    = date_requests w + (if existsb is_hole segs then 1 else 0).
Proof.
  intros Hfirst Hsegs _ Hfree Hnotdir Hfetch.
  set (path := joinpath (BASE_DIR env)
                 (fill (dt_format (emoji_date emoji) date_format) segs)) in *.
  rewrite (save_realmoji_after_first_pass env _ _ _ _ _ _ _ (unparse segs)) by done.
  set (w0 := if existsb is_hole segs
             then after_event (DateRequest (emoji_id emoji)) w else w).
  assert (Hsecond : second_pass env emoji (unparse segs) w
                    = (ok (fill (dt_format (emoji_date emoji) date_format) segs), w0)).
  { pose proof (contains_date_segments segs Hsegs) as Hin. unfold w0.
    destruct (existsb is_hole segs) eqn:Hhole.
    - rewrite second_pass_requests by done. by rewrite format_fills_date.
    - rewrite second_pass_skips by done. by rewrite fill_without_hole. }
  rewrite (bind_ok _ _ _ _ w0 Hsecond).
  fold path.
  assert (Hfs0 : fs w0 = fs w) by (unfold w0; by destruct (existsb is_hole segs)).
  assert (Hdates : date_requests w0
                   = date_requests w + (if existsb is_hole segs then 1 else 0)).
  { unfold w0. destruct (existsb is_hole segs);
      [by rewrite date_requests_after_event|lia]. }
  destruct path as [|name up] eqn:Hpath; [done|]. cbn [parent tail] in *.
  destruct (mkdir_succeeds up w0) as [wa Hmk]; [by rewrite Hfs0|].
  destruct (mkdir_frame up w0) as [[Hev _] Hframe]. rewrite Hmk in Hev, Hframe.
  cbn [snd] in Hev, Hframe.
  rewrite (bind_ok _ _ _ tt wa Hmk).
  rewrite (download_fresh env _ _ _ data); [|done| |].
  - eexists. split; [done|]. cbn [fs]. split; [by rewrite lookup_insert_eq|].
    split; [cbn [events]; apply in_or_app; right; by left|].
    rewrite <- Hdates. unfold date_requests. cbn [events].
    rewrite count_events_app, Hev. cbn. lia.
  - by apply (mkdir_ok_is_dir _ w0).
  - rewrite Hframe, Hfs0 by (cbn; lia). done.
Qed.

(** X15. Saving a realmoji whose location, after the first [format], is
    made of text without braces and [{date}] placeholders succeeds when the
    resolved path has no [..], no parent of it is a file, the path is no
    directory and the photo can be fetched: the parents are made, the photo is written at the
    path, and the date is requested once if the location has a placeholder
    and not at all otherwise. *)
Theorem realmoji_is_saved_at_its_resolved_path
    (env : Env) (feed_id : string) (item : Moment) (post_date : string)
    (post : Post) (rl irl : option string) (emoji : Realmoji)
    (segs : list segment) (data : string) (w : World) :
  first_pass env feed_id item post_date post (pick_location rl irl emoji) emoji
  = ok (unparse segs) ->
  forallb segment_ok segs = true ->
  plain_path (joinpath (BASE_DIR env)
                (fill (dt_format (emoji_date emoji) date_format) segs)) = true ->
  (forall q c,
     q `suffix_of` parent (joinpath (BASE_DIR env)
                             (fill (dt_format (emoji_date emoji) date_format) segs)) ->
     lookup_node (fs w) q ≠ Some (File c)) ->
  lookup_node (fs w)
    (joinpath (BASE_DIR env) (fill (dt_format (emoji_date emoji) date_format) segs))
  ≠ Some Dir ->
  fetch env (url (emoji_photo emoji)) = Some data ->
  exists w1,
    _save_realmoji env feed_id item post_date post rl irl emoji w = (ok tt, w1) /\
    fs w1 !! joinpath (BASE_DIR env)
               (fill (dt_format (emoji_date emoji) date_format) segs)
    = Some (File data) /\
    date_requests w1
    = date_requests w + (if existsb is_hole segs then 1 else 0).
Proof.
  intros Hfirst Hsegs Hplain Hfree Hnotdir Hfetch.
  destruct (save_realmoji_ok env feed_id item post_date post rl irl emoji segs
              data w Hfirst Hsegs Hplain Hfree Hnotdir Hfetch)
    as (w1 & Hrun & Hfile & _ & Hdates).
  by exists w1.
Qed.

Lemma realmoji_is_saved_witness :
  exists w1,
    _save_realmoji sample_env "friends-v1" sample_moment "2024-01-01_12-00-00"
      sample_post None (Some "{post_user}/{user}_{date}")
      (sample_realmoji "instant" "alice") empty_world = (ok tt, w1) /\
    fs w1 !! joinpath (BASE_DIR sample_env)
               (fill (dt_format (emoji_date (sample_realmoji "instant" "alice"))
                        date_format)
                  [Text "bob/alice_"; DateHole])
    = Some (File "bytes of https://cdn/realmoji/alice") /\
    date_requests w1
    = date_requests empty_world
      + (if existsb is_hole [Text "bob/alice_"; DateHole] then 1 else 0).
Proof.
  apply (realmoji_is_saved_at_its_resolved_path sample_env "friends-v1"
           sample_moment "2024-01-01_12-00-00" sample_post None
           (Some "{post_user}/{user}_{date}") (sample_realmoji "instant" "alice")
           [Text "bob/alice_"; DateHole]).
  - reflexivity.
  - reflexivity.
  - reflexivity.
  - intros q c _. destruct q as [|x q]; [done|].
    rewrite lookup_node_cons. unfold empty_world. cbn [fs].
    by rewrite lookup_empty.
  - vm_compute. discriminate.
  - reflexivity.
Defined.

(** ** Instant realmojis without a template of their own *)

Lemma for_each_app_ok {A} (body : A -> M unit) (before l : list A) : forall w w1,
  for_each before body w = (ok tt, w1) ->
  for_each (before ++ l) body w = for_each l body w1.
Proof.
  induction before as [|x before IH]; intros w w1 Hbefore.
  - cbn in Hbefore. by inversion Hbefore.
  - cbn [for_each] in Hbefore.
    apply bind_ok_inv in Hbefore as ([] & wx & Hx & Hbefore).
    cbn [app for_each]. rewrite (bind_ok _ _ _ tt wx Hx). by apply IH.
Qed.

Lemma bind_then_stable {A B} (P : World -> Prop) (m : M A) (f : A -> M B) w :
  P (snd (m w)) -> (forall a, stable P (f a)) -> P (snd ((m ≫= f) w)).
Proof.
  intros Hm Hf. unfold mbind, M_bind.
  destruct (m w) as [[a|e] w1]; cbn [snd] in *; [by apply Hf|done].
Qed.

Lemma save_item_friends_v1 (env : Env) save_location rl irl (m : Moment) :
  save_item env "friends-v1" save_location rl irl (ItMoment m)
  = for_each (posts m) (save_post env "friends-v1" save_location rl irl m).
Proof. reflexivity. Qed.

(** A file that is on disk and a request that was made stay so through
    whatever is saved later. *)
Lemma written_stays_written (env : Env) (path : Path) (ev : Event) :
  let P := fun w => kind_at path w = Some KFile /\ In ev (events w) in
  (forall feed_id save_location rl irl item,
     stable P (save_item env feed_id save_location rl irl item)) /\
  (forall feed_id save_location rl irl item post,
     stable P (save_post env feed_id save_location rl irl item post)) /\
  (forall feed_id item post_date post rl irl emoji,
     stable P (_save_realmoji env feed_id item post_date post rl irl emoji)).
Proof.
  intros P.
  assert (Hmkdir : forall p, stable P (mkdir p)).
  { intros p w [Hkind Hin]. split; [by apply mkdir_keeps_kind|].
    destruct (mkdir_frame p w) as [[-> _] _]. done. }
  assert (Hwrite : forall p data, stable P (write_file p data)).
  { intros p data w [Hkind Hin]. split; [by apply write_file_keeps_kind|].
    by destruct (write_file_world p data w) as [-> | ->]. }
  assert (Hemit : forall ev', stable P (emit ev')).
  { intros ev' w [Hkind Hin]. split; [done|]. cbn. apply in_or_app. by left. }
  split; [|split]; intros.
  - by apply save_item_stable.
  - by apply save_post_stable.
  - by apply save_realmoji_stable.
Qed.

(** C10, as the code has it. When the option for instant realmojis is not
    given and the one for non-instant realmojis is, the command behaves as
    if the template for non-instant realmojis had been given for instant
    ones too, and an instant realmoji that the traversal reaches is saved
    with it: if that template resolves for the realmoji to a path that can
    be written and the photo can be fetched, then after [feed] the photo
    has been requested for that path and a file is there.  Which template
    a realmoji gets depends only on whether its type is [instant]. *)
Theorem instant_realmojis_are_saved_with_realmoji_location
    (env : Env) (bf : BeFake) (save_location template : string)
    (items_before items_after : list FeedItem) (item : Moment)
    (posts_before posts_after : list Post) (post : Post)
    (emojis_before emojis_after : list Realmoji) (emoji : Realmoji)
    (s : string) (segs : list segment) (data : string)
    (w w0 wA wB wC w1 : World) :
  let post_date := dt_format (creation_date post) date_format in
  let path := joinpath (BASE_DIR env)
                (fill (dt_format (emoji_date emoji) date_format) segs) in
  (* the traversal reaches the realmoji *)
  get_friendsv1_feed bf w
  = (ok (items_before ++ ItMoment item :: items_after), w0) ->
  for_each items_before
    (save_item env "friends-v1" save_location (Some template) (Some template)) w0
  = (ok tt, wA) ->
  posts item = posts_before ++ post :: posts_after ->
  for_each posts_before
    (save_post env "friends-v1" save_location (Some template) (Some template) item)
    wA = (ok tt, wB) ->
  post_location env "friends-v1" save_location item post post_date = ok s ->
  _save_post_common env post (joinpath (BASE_DIR env) s) wB = (ok tt, wC) ->
  realmojis post = emojis_before ++ emoji :: emojis_after ->
  for_each emojis_before
    (_save_realmoji env "friends-v1" item post_date post
       (Some template) (Some template)) wC = (ok tt, w1) ->
  (* it is an instant realmoji, and its location can be written *)
  emoji_type emoji = "instant" ->
  first_pass env "friends-v1" item post_date post (Some template) emoji
  = ok (unparse segs) ->
  forallb segment_ok segs = true ->
  plain_path path = true ->
  (forall q c, q `suffix_of` parent path -> lookup_node (fs w1) q ≠ Some (File c)) ->
  lookup_node (fs w1) path ≠ Some Dir ->
  fetch env (url (emoji_photo emoji)) = Some data ->
  feed env bf "friends-v1" save_location (Some template) None
  = feed env bf "friends-v1" save_location (Some template) (Some template) /\
  pick_location (Some template) (py_or None (Some template)) emoji = Some template /\
  kind_at path
    (snd (feed env bf "friends-v1" save_location (Some template) None w))
  = Some KFile /\
  In (Download (url (emoji_photo emoji)) path)
    (events (snd (feed env bf "friends-v1" save_location (Some template) None w))) /\
  (forall rl irl e e',
     String.eqb (emoji_type e) "instant" = String.eqb (emoji_type e') "instant" ->
     pick_location rl irl e = pick_location rl irl e').
Proof.
  intros post_date path Hfeed Hitems Hposts_eq Hposts Hloc Hpost Hemojis Hrun
    Hinstant Hfirst Hsegs Hplain Hfree Hnotdir Hfetch.
  split; [apply feed_without_instant_location|].
  split; [apply pick_location_same|].
  cut (kind_at path
         (snd (feed env bf "friends-v1" save_location (Some template) None w))
       = Some KFile /\
       In (Download (url (emoji_photo emoji)) path)
         (events (snd (feed env bf "friends-v1" save_location
                         (Some template) None w)))).
  { intros [Hkind Hin]. split; [done|]. split; [done|].
    intros rl irl e e'. apply pick_location_by_type. }
  set (P := fun w' => kind_at path w' = Some KFile /\
                      In (Download (url (emoji_photo emoji)) path) (events w')).
  destruct (written_stays_written env path
              (Download (url (emoji_photo emoji)) path))
    as (Hitem_stable & Hpost_stable & Hemoji_stable).
  change (P (snd (feed env bf "friends-v1" save_location (Some template) None w))).
  unfold feed. destruct (feedgetter_lookup bf) as (-> & _).
  rewrite (bind_ok _ _ _ _ w0 Hfeed).
  change (py_or None (Some template)) with (Some template).
  (* up to the moment *)
  rewrite (for_each_app_ok _ _ _ _ _ Hitems). cbn [for_each].
  apply bind_then_stable;
    [|intros _; apply stable_for_each; intros x; apply Hitem_stable].
  (* up to the post *)
  rewrite save_item_friends_v1, Hposts_eq.
  rewrite (for_each_app_ok _ _ _ _ _ Hposts). cbn [for_each].
  apply bind_then_stable;
    [|intros _; apply stable_for_each; intros x; apply Hpost_stable].
  (* the post, then up to the realmoji *)
  unfold save_post. fold post_date. rewrite Hloc, lift_ok_bind.
  rewrite (bind_ok _ _ _ tt wC Hpost).
  unfold _save_realmojis. rewrite Hemojis.
  rewrite (for_each_app_ok _ _ _ _ _ Hrun). cbn [for_each].
  apply bind_then_stable;
    [|intros _; apply stable_for_each; intros x; apply Hemoji_stable].
  (* the realmoji *)
  destruct (save_realmoji_ok env "friends-v1" item post_date post
              (Some template) (Some template) emoji segs data w1)
    as (w2 & Hsave & Hfile & Hevent & _); try done.
  { by rewrite pick_location_same. }
  rewrite Hsave. cbn [snd]. split; [|done].
  unfold kind_at. fold path in Hfile. by rewrite Hfile.
Qed.

Lemma instant_realmojis_are_saved_witness :
  feed sample_env moment_bf "friends-v1" "/posts/{post_id}"
    (Some "{post_user}/{user}_{date}") None
  = feed sample_env moment_bf "friends-v1" "/posts/{post_id}"
      (Some "{post_user}/{user}_{date}") (Some "{post_user}/{user}_{date}") /\
  pick_location (Some "{post_user}/{user}_{date}")
    (py_or None (Some "{post_user}/{user}_{date}"))
    (sample_realmoji "instant" "alice")
  = Some "{post_user}/{user}_{date}" /\
  kind_at ["alice_2024-01-01"; "bob"; "befake"; "home"]
    (snd (feed sample_env moment_bf "friends-v1" "/posts/{post_id}"
            (Some "{post_user}/{user}_{date}") None empty_world))
  = Some KFile /\
  In (Download "https://cdn/realmoji/alice"
        ["alice_2024-01-01"; "bob"; "befake"; "home"])
    (events (snd (feed sample_env moment_bf "friends-v1" "/posts/{post_id}"
                    (Some "{post_user}/{user}_{date}") None empty_world))) /\
  (forall rl irl e e',
     String.eqb (emoji_type e) "instant" = String.eqb (emoji_type e') "instant" ->
     pick_location rl irl e = pick_location rl irl e').
Proof.
  apply (instant_realmojis_are_saved_with_realmoji_location sample_env moment_bf
           "/posts/{post_id}" "{post_user}/{user}_{date}"
           [] [] sample_moment [] [] sample_post
           [] [] (sample_realmoji "instant" "alice")
           "/posts/post-1" [Text "bob/alice_"; DateHole]
           "bytes of https://cdn/realmoji/alice"
           empty_world empty_world empty_world empty_world
           (snd (_save_post_common sample_env sample_post ["post-1"; "posts"]
                   empty_world))
           (snd (_save_post_common sample_env sample_post ["post-1"; "posts"]
                   empty_world))).
  - reflexivity.
  - reflexivity.
  - reflexivity.
  - reflexivity.
  - reflexivity.
  - vm_compute. reflexivity.
  - reflexivity.
  - reflexivity.
  - reflexivity.
  - reflexivity.
  - reflexivity.
  - reflexivity.
  - intros q c Hq.
    change (q `suffix_of` ["bob"; "befake"; "home"]) in Hq.
    destruct q as [|x q]; [done|].
    repeat (apply suffix_cons_inv in Hq as [Hq|Hq];
            [inversion Hq; by vm_compute|]).
    by apply suffix_nil_inv in Hq.
  - vm_compute. discriminate.
  - reflexivity.
Defined.

(** C10, as stated, fails when the option for non-instant realmojis is not
    given either: there is no template to fall back on, [feed] raises
    [AttributeError] at the instant realmoji of the post, and the only
    requests made are those for the two photos of the post: the realmoji
    is not saved. *)
Lemma instant_realmoji_without_any_location_is_not_saved :
  let run := feed sample_env moment_bf "friends-v1" "/posts/{post_id}" None None
               empty_world in
  emoji_type (sample_realmoji "instant" "alice") = "instant" /\
  fst run = raised (AttributeError "format") /\
  events (snd run)
  = [Download "https://cdn/post-1/primary.webp" ["primary"; "post-1"; "posts"];
     Download "https://cdn/post-1/secondary.webp" ["secondary"; "post-1"; "posts"]].
Proof. vm_compute. repeat split; reflexivity. Qed.
